(** * Distributed tensor wrapper: [colossalai/tensor/d_tensor/d_tensor.py]

    A shallow embedding of the [DTensor] class and of the helpers of the
    same file.  Python objects that are shared and mutated ([Layout]) live in
    a store indexed by references; the receiver [self] of a method is part of
    the state a method runs in; exceptions are results of type [Raise]. *)

From stdpp Require Import base option list strings gmap.
From Stdlib Require Import ZArith Ascii.

Set Warnings "-register-all".
Local Open Scope Z_scope.
Local Open Scope string_scope.
Local Open Scope list_scope.

(** ** Exceptions and the state/exception monad *)

Inductive Error :=
  | InvalidPartitionError
  | IncompatibleSpecError
  | CollectiveFailureError
  | TypeError
  | KeyError
  | AttributeError
  | RuntimeError.

Inductive Result (A : Type) :=
  | Ok (a : A)
  | Raise (e : Error).
Arguments Ok {A} a.
Arguments Raise {A} e.

(** A computation over a mutable state [S]: what was written before an
    exception is raised stays written, as in Python. *)
Definition M (S A : Type) : Type := S → Result A * S.

Global Instance M_ret {S} : MRet (M S) := λ A a s, (Ok a, s).
Global Instance M_bind {S} : MBind (M S) := λ A B f m s,
  match m s with
  | (Ok a, s') => f a s'
  | (Raise e, s') => (Raise e, s')
  end.

Definition get {S} : M S S := λ s, (Ok s, s).
Definition modify {S} (f : S → S) : M S unit := λ s, (Ok tt, f s).
Definition lift {S A} (r : Result A) : M S A := λ s, (r, s).

(** ** The collaborators' data: tensors, meshes, specs, layouts *)

(** [torch.Size] *)
Definition Shape := list Z.

(** What the file observes of a [torch.Tensor]: [.shape], [.dtype],
    [.device], [.requires_grad], and its elements. *)
Module Tensor.
Record t := mk {
  shape : Shape;
  dtype : string;
  device : string;
  requires_grad : bool;
  elements : list Z
}.
End Tensor.

Module DeviceMesh.
Record t := mk { shape : list Z }.
End DeviceMesh.

(** Modelled from the spec: the class [ShardingSpec] is defined in
    [colossalai.tensor.sharding_spec], not in [d_tensor.py].  The spec
    (PartitionSpec) gives it the three attributes its constructor receives
    here; [entire_shape] is optional because
    [convert_layout_to_sharding_spec] forwards a layout's shape as it is,
    resolved or not. *)
Module ShardingSpec.
Record t := mk {
  device_mesh : DeviceMesh.t;
  entire_shape : option Shape;
  dim_partition_dict : gmap nat (list nat)
}.
End ShardingSpec.

(** Modelled from the spec: the class [Layout] is defined in
    [colossalai.tensor.d_tensor.layout], not in [d_tensor.py]; these are the
    attributes [d_tensor.py] reads and writes. *)
Module Layout.
Record t := mk {
  device_mesh : DeviceMesh.t;
  device_type : string;
  sharding_spec : ShardingSpec.t;
  entire_shape : option Shape
}.

Definition set_entire_shape (s : option Shape) (l : t) : t :=
  mk (device_mesh l) (device_type l) (sharding_spec l) s.
Definition set_device_type (d : string) (l : t) : t :=
  mk (device_mesh l) d (sharding_spec l) (entire_shape l).
End Layout.

(** References to [Layout] objects, and the store that holds them. *)
Definition ref := nat.
Abbreviation Heap := (gmap ref Layout.t).

(** Reading an attribute through a reference.  Python has no dangling
    reference; the store can: such a read raises. *)
Definition deref (r : ref) : M Heap Layout.t := λ h,
  match h !! r with
  | Some l => (Ok l, h)
  | None => (Raise AttributeError, h)
  end.

(** ** [convert_layout_to_sharding_spec], [construct_default_sharding_spec] *)

Definition convert_layout_to_sharding_spec (layout : Layout.t) : ShardingSpec.t :=
  ShardingSpec.mk (Layout.device_mesh layout)
                  (Layout.entire_shape layout)
                  (ShardingSpec.dim_partition_dict (Layout.sharding_spec layout)).

Definition construct_default_sharding_spec
    (tensor : Tensor.t) (device_mesh : DeviceMesh.t) : ShardingSpec.t :=
  ShardingSpec.mk device_mesh (Some (Tensor.shape tensor)) ∅.

(** ** The class [DTensor] *)

Module DTensor.
Record t := mk {
  local_tensor : Tensor.t;
  data_type : string;
  entire_shape : Shape;
  dist_layout : ref
}.

Definition set_local_tensor (x : Tensor.t) (d : t) : t :=
  mk x (data_type d) (entire_shape d) (dist_layout d).
Definition set_data_type (x : string) (d : t) : t :=
  mk (local_tensor d) x (entire_shape d) (dist_layout d).
Definition set_dist_layout (x : ref) (d : t) : t :=
  mk (local_tensor d) (data_type d) (entire_shape d) x.
End DTensor.

(** Arguments of a library call: leaves and the containers
    [torch.utils._pytree] descends into. *)
Inductive Value :=
  | VTensor (x : Tensor.t)
  | VDTensor (d : DTensor.t)
  | VLayout (r : ref)
  | VInt (z : Z)
  | VStr (s : string)
  | VNone.

Inductive PyTree :=
  | Leaf (v : Value)
  | PyList (l : list PyTree)
  | PyTuple (l : list PyTree)
  | PyDict (l : list (string * PyTree)).

(** The state a method of a [DTensor] runs in: the receiver and the store
    of layouts. *)
Record Env := mkEnv { self : DTensor.t; heap : Heap }.

Definition set_self (f : DTensor.t → DTensor.t) : M Env unit :=
  modify (λ e, mkEnv (f (self e)) (heap e)).
Definition with_heap {A} (m : M Heap A) : M Env A := λ e,
  let '(r, h) := m (heap e) in (r, mkEnv (self e) h).
Definition store (r : ref) (l : Layout.t) : M Heap unit :=
  modify (λ h : Heap, <[r := l]> h).

(** Running the body of a constructor on the object [__new__] made: the
    value of the call is the object. *)
Definition on_receiver {A} (this : DTensor.t) (m : M Env A) : M Heap DTensor.t := λ h,
  let '(r, e) := m (mkEnv this h) in
  (match r with Ok _ => Ok (self e) | Raise err => Raise err end, heap e).

Section Methods.
(** The planner [ShapeConsistencyManager.apply_for_autoparallel_runtime],
    the reconstruction [to_global] of [shape_consistency], and
    [torch.Tensor.to] are collaborators. *)
Variable apply_for_autoparallel_runtime :
  Tensor.t → ShardingSpec.t → ShardingSpec.t → Result Tensor.t.
Variable tensor_to :
  Tensor.t → list PyTree → list (string * PyTree) → Result Tensor.t.

(** [self.dist_layout.<attr>] *)
Definition self_layout : M Env Layout.t :=
  e ← get; with_heap (deref (DTensor.dist_layout (self e))).

(** property [device_mesh] *)
Definition device_mesh : M Env DeviceMesh.t :=
  l ← self_layout; mret (Layout.device_mesh l).

(** property [sharding_spec] *)
Definition sharding_spec : M Env ShardingSpec.t :=
  l ← self_layout; mret (Layout.sharding_spec l).

Definition layout_convert (target_layout : ref) : M Env unit :=
  cur ← self_layout;
  let source_spec := convert_layout_to_sharding_spec cur in
  tgt ← with_heap (deref target_layout);
  let target_spec := convert_layout_to_sharding_spec tgt in
  e ← get;
  x ← lift (apply_for_autoparallel_runtime
              (DTensor.local_tensor (self e)) source_spec target_spec);
  set_self (DTensor.set_local_tensor x);;
  set_self (DTensor.set_dist_layout target_layout).

Definition _apply_layout : M Env unit :=
  e ← get;
  mesh ← device_mesh;
  let source_spec :=
    construct_default_sharding_spec (DTensor.local_tensor (self e)) mesh in
  cur ← self_layout;
  let target_spec := convert_layout_to_sharding_spec cur in
  x ← lift (apply_for_autoparallel_runtime
              (DTensor.local_tensor (self e)) source_spec target_spec);
  set_self (DTensor.set_local_tensor x).

(** [DTensor(local_tensor, dist_layout)]: [__new__] makes the object,
    [__init__] fills it.  The four attribute assignments of [__init__]
    build the receiver; the layout is resolved in between. *)
Definition __init__ (local_tensor : Tensor.t) (dist_layout : ref) : M Heap DTensor.t :=
  let data_type := Tensor.dtype local_tensor in
  let entire_shape := Tensor.shape local_tensor in
  l ← deref dist_layout;
  _ ← (if Layout.entire_shape l is None
       then store dist_layout (Layout.set_entire_shape (Some entire_shape) l)
       else mret tt);
  on_receiver (DTensor.mk local_tensor data_type entire_shape dist_layout)
              _apply_layout.

Definition to (args : list PyTree) (kwargs : list (string * PyTree)) : M Env DTensor.t :=
  e ← get;
  x ← lift (tensor_to (DTensor.local_tensor (self e)) args kwargs);
  set_self (DTensor.set_local_tensor x);;
  set_self (DTensor.set_data_type (Tensor.dtype x));;
  l ← self_layout;
  with_heap (store (DTensor.dist_layout (self e))
                   (Layout.set_device_type (Tensor.device x) l));;
  e' ← get; mret (self e').

Definition to_local : M Env Tensor.t :=
  e ← get; mret (DTensor.local_tensor (self e)).

(** Modelled from the spec: the function [to_global] is defined in
    [colossalai.tensor.shape_consistency], not in [d_tensor.py].  The spec
    defines it as the reshard of the local tensor from its spec to the fully
    replicated spec over the same shape (and mesh). *)
Definition shape_consistency_to_global
    (distributed_tensor : Tensor.t) (spec : ShardingSpec.t) : Result Tensor.t :=
  apply_for_autoparallel_runtime distributed_tensor spec
    (ShardingSpec.mk (ShardingSpec.device_mesh spec)
                     (ShardingSpec.entire_shape spec) ∅).

Definition to_global : M Env Tensor.t :=
  e ← get;
  l ← self_layout;
  lift (shape_consistency_to_global (DTensor.local_tensor (self e))
                                    (convert_layout_to_sharding_spec l)).

Definition distribute_tensor (local_tensor : Tensor.t) (dist_layout : ref) : M Heap DTensor.t :=
  __init__ local_tensor dist_layout.
End Methods.

(** ** [DTensor.__repr__], [DTensor.__str__] *)

Section Printing.
(** How a tensor and a layout object print is the library's and the
    interpreter's business; the layout is printed as the object it is. *)
Variable apply_for_autoparallel_runtime :
  Tensor.t → ShardingSpec.t → ShardingSpec.t → Result Tensor.t.
Variable str_of_tensor : Tensor.t → string.
Variable str_of_layout : ref → Layout.t → string.

(** [f"DTensor({self.to_global()}, {self.dist_layout})"] *)
Definition __repr__ : M Env string :=
  g ← to_global apply_for_autoparallel_runtime;
  e ← get;
  l ← self_layout;
  mret ("DTensor(" +:+ str_of_tensor g +:+ ", "
        +:+ str_of_layout (DTensor.dist_layout (self e)) l +:+ ")").

Definition __str__ : M Env string := __repr__.
End Printing.

(** ** [DTensor.__torch_function__] *)

Fixpoint tree_map (f : Value → Value) (x : PyTree) : PyTree :=
  match x with
  | Leaf v => Leaf (f v)
  | PyList l => PyList (map (tree_map f) l)
  | PyTuple l => PyTuple (map (tree_map f) l)
  | PyDict l => PyDict (map (λ kv, (kv.1, tree_map f kv.2)) l)
  end.

(** [*args] and [**kwargs] at a call. *)
Definition star (x : PyTree) : list PyTree :=
  match x with PyTuple l | PyList l => l | _ => [] end.
Definition star_star (x : PyTree) : list (string * PyTree) :=
  match x with PyDict l => l | _ => [] end.

Definition filter_arg (arg : Value) : Value :=
  match arg with
  | VDTensor d => VTensor (DTensor.local_tensor d)
  | _ => arg
  end.

Definition __torch_function__ {R} (func : list PyTree → list (string * PyTree) → R)
    (types : list string) (args : list PyTree)
    (kwargs : option (list (string * PyTree))) : R :=
  let kwargs := match kwargs with None => [] | Some k => k end in
  let args := tree_map filter_arg (PyTuple args) in
  let kwargs := tree_map filter_arg (PyDict kwargs) in
  func (star args) (star_star kwargs).

(** ** The module system [torch.nn.Module] (collaborator)

    Of a module, [distribute_module] uses [named_parameters()] and
    [setattr].  A module keeps its own parameters in the ordered dictionary
    [_parameters] (a registered [None] is the slot [PNone]) and its children
    in the ordered dictionary [_modules]. *)

(** Python tells objects apart by identity: the same [Parameter] object may
    sit in several slots (tied parameters). *)
Definition oid := nat.

(** What a parameter slot holds: a parameter object over a plain tensor, a
    parameter object that is a [DTensor], or [None]. *)
Inductive Param :=
  | PTensor (o : oid) (x : Tensor.t)
  | PDTensor (o : oid) (d : DTensor.t)
  | PNone.

(** The object in a slot, if there is one. *)
Definition object (p : Param) : option oid :=
  match p with
  | PTensor o _ | PDTensor o _ => Some o
  | PNone => None
  end.

Inductive Module :=
  mkModule (_parameters : list (string * Param)) (_modules : list (string * Module)).

Definition _parameters (m : Module) : list (string * Param) :=
  match m with mkModule ps _ => ps end.
Definition _modules (m : Module) : list (string * Module) :=
  match m with mkModule _ ms => ms end.

(** Ordered dictionaries: [d[k] = v] keeps the position of a key that is
    present and appends one that is not; [del d[k]]. *)
Fixpoint dict_set {A} (k : string) (v : A) (d : list (string * A)) : list (string * A) :=
  match d with
  | [] => [(k, v)]
  | (k', v') :: d' =>
      if decide (k' = k) then (k, v) :: d' else (k', v') :: dict_set k v d'
  end.

Fixpoint dict_get {A} (k : string) (d : list (string * A)) : option A :=
  match d with
  | [] => None
  | (k', v') :: d' => if decide (k' = k) then Some v' else dict_get k d'
  end.

Definition dict_del {A} (k : string) (d : list (string * A)) : list (string * A) :=
  filter (λ kv, kv.1 ≠ k) d.

(** [prefix + ('.' if prefix else '') + name] *)
Definition join_prefix (prefix name : string) : string :=
  if decide (prefix = "") then name else prefix +:+ "." +:+ name.

Definition is_None (p : Param) : bool :=
  match p with PNone => true | _ => false end.

(** The members [named_parameters()] goes through: the slots of the module
    itself, then those of each child in turn, under the child's name and a
    dot ([named_modules()] in front of [_parameters.items()]). *)
Fixpoint named_members (prefix : string) (m : Module) : list (string * Param) :=
  match m with
  | mkModule ps ms =>
      map (λ kv, (join_prefix prefix kv.1, kv.2)) ps
      ++ flat_map (λ nm, named_members (join_prefix prefix nm.1) nm.2) ms
  end.

(** [if v is None or v in memo: continue], then [memo.add(v)] and
    [yield name, v]: a slot holding [None] is skipped, and so is an object
    that was yielded before, under whatever name. *)
Fixpoint unseen (memo : list oid) (members : list (string * Param))
    : list (string * Param) :=
  match members with
  | [] => []
  | (name, v) :: rest =>
      match object v with
      | None => unseen memo rest
      | Some o =>
          if decide (o ∈ memo) then unseen memo rest
          else (name, v) :: unseen (o :: memo) rest
      end
  end.

(** [named_parameters(prefix)]: every parameter object once, under the
    first name it is met with.  (A child that is met a second time would be
    skipped as a whole; its parameters are the same objects as the first
    time, so they are skipped here all the same.) *)
Definition named_parameters_from (prefix : string) (m : Module) : list (string * Param) :=
  unseen [] (named_members prefix m).

Definition named_parameters (m : Module) : list (string * Param) :=
  named_parameters_from "" m.

(** ['.' in name] *)
Fixpoint has_dot (s : string) : bool :=
  match s with
  | EmptyString => false
  | String c s' => if Ascii.eqb c "."%char then true else has_dot s'
  end.

(** [Module.register_parameter(name, param)]: a name with a dot and the
    empty name are refused with a [KeyError], before anything is written.
    (Its last guard, an attribute of that name that is not a parameter,
    cannot fire after [remove_from] below.) *)
Definition register_parameter (name : string) (param : Param) : M Module unit :=
  if has_dot name then lift (Raise KeyError)
  else if decide (name = "") then lift (Raise KeyError)
  else modify (λ m, mkModule (dict_set name param (_parameters m)) (_modules m)).

(** [setattr(module, name, value)] on a [torch.nn.Module] is
    [Module.__setattr__(name, value)].  For a value that is a [Parameter],
    the only kind [distribute_module] assigns, the name is first removed from
    the other dictionaries of the module ([remove_from]), then the parameter
    is registered. *)
Definition setattr (name : string) (value : Param) : M Module unit :=
  modify (λ m, mkModule (_parameters m) (dict_del name (_modules m)));;
  register_parameter name value.

(** ** [distribute_module] *)

(** The state of [distribute_module]: the module it was given and the store
    of layouts its callback may write. *)
Record World := mkWorld { root : Module; layouts : Heap }.

Definition in_layouts {A} (m : M Heap A) : M World A := λ w,
  let '(r, h) := m (layouts w) in (r, mkWorld (root w) h).
Definition in_root {A} (m : M Module A) : M World A := λ w,
  let '(r, x) := m (root w) in (r, mkWorld x (layouts w)).

Fixpoint for_each {S A} (body : A → M S unit) (l : list A) : M S unit :=
  match l with
  | [] => mret tt
  | x :: l' => body x;; for_each body l'
  end.

(** [isinstance(param, DTensor)] *)
Definition isinstance_DTensor (p : Param) : bool :=
  match p with PDTensor _ _ => true | _ => false end.

(** A tensor on the same elements that is cut off from the graph:
    [requires_grad] is [False]. *)
Definition detach (x : Tensor.t) : Tensor.t :=
  Tensor.mk (Tensor.shape x) (Tensor.dtype x) (Tensor.device x) false
            (Tensor.elements x).

(** [param.data]: the tensor of the parameter, detached.  ([distribute_module]
    reads it of parameters that are not [DTensor]s only.) *)
Definition data (param : Param) : Result Tensor.t :=
  match param with
  | PTensor _ x => Ok (detach x)
  | PDTensor _ d => Ok (detach (DTensor.local_tensor d))
  | PNone => Raise AttributeError
  end.

Definition Callback := string → Tensor.t → M Heap Value.

(** Calling [partition_fn]; calling [None] is a [TypeError]. *)
Definition call (partition_fn : option Callback) (name : string) (x : Tensor.t) : M Heap Value :=
  match partition_fn with
  | Some f => f name x
  | None => lift (Raise TypeError)
  end.

Section Distribute.
(** The constructor [torch.nn.Parameter] is a collaborator. *)
Variable nn_Parameter : Value → Result Param.

Definition distribute_body (partition_fn : option Callback)
    (entry : string * Param) : M World unit :=
  let '(name, param) := entry in
  if negb (is_None param) && negb (isinstance_DTensor param) then
    d ← lift (data param);
    x ← in_layouts (call partition_fn name d);
    p ← lift (nn_Parameter x);
    in_root (setattr name p)
  else mret tt.

(** The loop runs over a generator while the module is written to.  A
    write that goes through replaces the value under a key of the root's
    own [_parameters], so the entries still to come are those of the module
    as it was, as long as no parameter bears the name of a child (the module
    system keeps the names of a module distinct). *)
Definition distribute_module (module : Module) (partition_fn : option Callback)
    : M Heap Module := λ h,
  let '(r, w) := for_each (distribute_body partition_fn) (named_parameters module)
                          (mkWorld module h) in
  (match r with Ok _ => Ok (root w) | Raise e => Raise e end, layouts w).

(** The module as it is when [distribute_module] returns or raises. *)
Definition module_after (module : Module) (partition_fn : option Callback)
    (h : Heap) : Module :=
  root (for_each (distribute_body partition_fn) (named_parameters module)
                 (mkWorld module h)).2.
End Distribute.

(** ** The resharding planner, from the spec *)

Global Instance DeviceMesh_eq_dec : EqDecision DeviceMesh.t.
Proof. solve_decision. Defined.

(** The class [ShapeConsistencyManager] is defined in
    [colossalai.tensor.shape_consistency], not in [d_tensor.py].  The spec
    describes the planner as follows: a spec is validated before it is
    consumed; source and target must agree on shape and mesh; then each mesh
    axis, in ascending order, yields one primitive (split, gather, axis
    reassignment or no-op) applied to the running local tensor.  The
    primitives themselves are the array library's. *)

Module ResidencyPlanner.

(** Modelled from the spec: the four primitive moves of the planner
    [ShapeConsistencyManager], which [d_tensor.py] imports. *)
Inductive Primitive :=
  | Split (dim axis : nat)
  | Gather (dim axis : nat)
  | AllToAll (axis old_dim new_dim : nat)
  | NoOp.

(** Modelled from the spec: the mesh axes a [ShardingSpec] assigns, over
    all logical dimensions (the invariant of PartitionSpec is about them). *)
Definition assigned_axes (spec : ShardingSpec.t) : list nat :=
  concat (snd <$> map_to_list (ShardingSpec.dim_partition_dict spec)).

(** Modelled from the spec: the logical dimension that claims a mesh axis
    in a [ShardingSpec], if one does. *)
Definition claimed_by (spec : ShardingSpec.t) (axis : nat) : option nat :=
  (λ hit, hit.2.1) <$>
    list_find (λ kv : nat * list nat, axis ∈ kv.2)
              (map_to_list (ShardingSpec.dim_partition_dict spec)).

(** Modelled from the spec: the extent of a mesh axis, [DeviceMesh.shape]. *)
Definition mesh_extent (mesh : DeviceMesh.t) (axis : nat) : Z :=
  default 1 (DeviceMesh.shape mesh !! axis).

(** Modelled from the spec: [validate], of [ShardingSpec].  No mesh axis is
    used twice, every mesh axis and every logical dimension is in range,
    every split dimension is evenly divisible by the product of the extents
    of its mesh axes. *)
Definition validate (spec : ShardingSpec.t) : bool :=
  match ShardingSpec.entire_shape spec with
  | None => false
  | Some shape =>
      let mesh := ShardingSpec.device_mesh spec in
      bool_decide (NoDup (assigned_axes spec))
      && forallb (λ a, bool_decide (a < length (DeviceMesh.shape mesh))%nat)
                 (assigned_axes spec)
      && forallb (λ kv : nat * list nat,
                    match shape !! kv.1 with
                    | None => false
                    | Some extent =>
                        Z.eqb (extent mod foldr Z.mul 1 (mesh_extent mesh <$> kv.2)) 0
                    end)
                 (map_to_list (ShardingSpec.dim_partition_dict spec))
  end.

(** Modelled from the spec: the check of [ShapeConsistencyManager] behind
    [IncompatibleSpecError], same global shape and same mesh. *)
Definition compatible (source target : ShardingSpec.t) : bool :=
  bool_decide (ShardingSpec.entire_shape source = ShardingSpec.entire_shape target)
  && bool_decide (ShardingSpec.device_mesh source = ShardingSpec.device_mesh target).

(** Modelled from the spec: the primitive the planner of
    [ShapeConsistencyManager] chooses for one mesh axis, by what claims the
    axis in the source and in the target. *)
Definition primitive_for (source target : ShardingSpec.t) (axis : nat) : Primitive :=
  match claimed_by source axis, claimed_by target axis with
  | None, None => NoOp
  | None, Some d => Split d axis
  | Some d, None => Gather d axis
  | Some d, Some d' => if decide (d = d') then NoOp else AllToAll axis d d'
  end.

(** Modelled from the spec: the plan of [ShapeConsistencyManager], one
    primitive per mesh axis in ascending order. *)
Definition plan (source target : ShardingSpec.t) : list Primitive :=
  primitive_for source target <$>
    seq 0 (length (DeviceMesh.shape (ShardingSpec.device_mesh source))).

Section Execute.
Variable split : nat → nat → Tensor.t → Result Tensor.t.
Variable all_gather : nat → nat → Tensor.t → Result Tensor.t.
Variable all_to_all : nat → nat → nat → Tensor.t → Result Tensor.t.

(** Modelled from the spec: how [ShapeConsistencyManager] carries out a
    plan, each primitive on the result of the one before; the no-op is
    skipped, a failed collective ends the run. *)
Definition apply_primitive (p : Primitive) (x : Tensor.t) : Result Tensor.t :=
  match p with
  | Split d a => split d a x
  | Gather d a => all_gather d a x
  | AllToAll a d d' => all_to_all a d d' x
  | NoOp => Ok x
  end.

Fixpoint run_plan (ps : list Primitive) (x : Tensor.t) : Result Tensor.t :=
  match ps with
  | [] => Ok x
  | p :: ps' =>
      match apply_primitive p x with
      | Ok y => run_plan ps' y
      | Raise e => Raise e
      end
  end.

(** Modelled from the spec: [reshard], the contract of
    [ShapeConsistencyManager.apply_for_autoparallel_runtime].  Specs are
    validated, then compared, then the plan runs axis by axis. *)
Definition reshard (local_tensor : Tensor.t) (source target : ShardingSpec.t)
    : Result Tensor.t :=
  if negb (validate source && validate target) then Raise InvalidPartitionError
  else if negb (compatible source target) then Raise IncompatibleSpecError
  else run_plan (plan source target) local_tensor.
End Execute.
End ResidencyPlanner.

(** ** The helper as the spec words it *)

Section AsSpecified.
Variable apply_for_autoparallel_runtime :
  Tensor.t → ShardingSpec.t → ShardingSpec.t → Result Tensor.t.

End AsSpecified.

(** ** Sample collaborators and inputs *)

Module Sample.
Definition mesh : DeviceMesh.t := DeviceMesh.mk [2; 2].

Definition full : Tensor.t :=
  Tensor.mk [4; 4] "float32" "cpu" false
            [0; 1; 2; 3; 4; 5; 6; 7; 8; 9; 10; 11; 12; 13; 14; 15].

(** rows 0 and 1 of [full] *)
Definition shard : Tensor.t :=
  Tensor.mk [2; 4] "float32" "cpu" false [0; 1; 2; 3; 4; 5; 6; 7].

Definition rows_split : gmap nat (list nat) := {[ 0%nat := [0%nat] ]}.

Definition unresolved_layout : Layout.t :=
  Layout.mk mesh "cpu" (ShardingSpec.mk mesh None rows_split) None.
Definition resolved_layout : Layout.t :=
  Layout.mk mesh "cpu" (ShardingSpec.mk mesh None rows_split) (Some [4; 4]).
Definition other_shape_layout : Layout.t :=
  Layout.mk mesh "cpu" (ShardingSpec.mk mesh None rows_split) (Some [8; 2]).
Definition replicated_layout : Layout.t :=
  Layout.mk mesh "cpu" (ShardingSpec.mk mesh None ∅) (Some [4; 4]).

Definition heap0 : Heap :=
  {[ 0%nat := unresolved_layout; 1%nat := resolved_layout;
     2%nat := replicated_layout; 3%nat := other_shape_layout;
     4%nat := resolved_layout ]}.

Definition dtensor : DTensor.t := DTensor.mk shard "float32" [4; 4] 1%nat.
Definition env0 : Env := mkEnv dtensor heap0.

(** [shard] after a gather by [planner] below *)
Definition gathered : Tensor.t :=
  Tensor.mk [4; 4] "float32" "cpu" false
            [0; 1; 2; 3; 4; 5; 6; 7; 0; 1; 2; 3; 4; 5; 6; 7].

(** A planner that keeps the first half of the elements when the target
    splits dimension 0, and fails on a target without a shape. *)
Definition planner (x : Tensor.t) (source target : ShardingSpec.t) : Result Tensor.t :=
  match ShardingSpec.entire_shape target with
  | None => Raise InvalidPartitionError
  | Some _ =>
      if decide (ShardingSpec.dim_partition_dict source
                 = ShardingSpec.dim_partition_dict target) then Ok x
      else if decide (ShardingSpec.dim_partition_dict target = rows_split) then
        Ok (Tensor.mk [2; 4] (Tensor.dtype x) (Tensor.device x)
                      (Tensor.requires_grad x) (take 8 (Tensor.elements x)))
      else Ok (Tensor.mk [4; 4] (Tensor.dtype x) (Tensor.device x)
                         (Tensor.requires_grad x)
                         (Tensor.elements x ++ Tensor.elements x))
  end.

(** [x.to(dtype)] and [x.to(device)] for a string argument. *)
Definition tensor_to (x : Tensor.t) (args : list PyTree)
    (kwargs : list (string * PyTree)) : Result Tensor.t :=
  match args with
  | [Leaf (VStr "float16")] =>
      Ok (Tensor.mk (Tensor.shape x) "float16" (Tensor.device x)
                    (Tensor.requires_grad x) (Tensor.elements x))
  | [Leaf (VStr dev)] =>
      Ok (Tensor.mk (Tensor.shape x) (Tensor.dtype x) dev
                    (Tensor.requires_grad x) (Tensor.elements x))
  | _ => Raise TypeError
  end.

(** Collectives that are down: a plan that runs one of them fails. *)
Definition split (d a : nat) (x : Tensor.t) : Result Tensor.t :=
  Raise CollectiveFailureError.
Definition all_gather (d a : nat) (x : Tensor.t) : Result Tensor.t :=
  Raise CollectiveFailureError.
Definition all_to_all (a d d' : nat) (x : Tensor.t) : Result Tensor.t :=
  Raise CollectiveFailureError.

(** A [Parameter] over a tensor or a tensor subclass requires gradients;
    anything else is refused.  The object it makes is number 100. *)
Definition nn_Parameter (v : Value) : Result Param :=
  match v with
  | VTensor x =>
      Ok (PTensor 100%nat
            (Tensor.mk (Tensor.shape x) (Tensor.dtype x) (Tensor.device x)
                       true (Tensor.elements x)))
  | VDTensor d => Ok (PDTensor 100%nat d)
  | _ => Raise TypeError
  end.

Definition weight : Tensor.t := Tensor.mk [2] "float32" "cpu" true [1; 2].
Definition bias : Tensor.t := Tensor.mk [1] "float32" "cpu" true [3].

(** A callback that halves every element. *)
Definition halve : Callback := λ name x,
  mret (VTensor (Tensor.mk (Tensor.shape x) (Tensor.dtype x) (Tensor.device x)
                           false ((λ z, z / 2) <$> Tensor.elements x))).


Definition flat : Module :=
  mkModule [("weight", PTensor 1%nat weight); ("bias", PNone);
            ("scale", PDTensor 2%nat dtensor)] [].

Definition distributed : Module :=
  mkModule [("scale", PDTensor 2%nat dtensor)]
           [("sub", mkModule [("scale", PDTensor 3%nat dtensor)] [])].

Definition nested : Module :=
  mkModule [("scale", PDTensor 2%nat dtensor)]
           [("sub", mkModule [("weight", PTensor 1%nat weight)] [])].
End Sample.

(** Further samples: a callback that serves one parameter and fails on
    the others, a callback that always fails, modules with tied parameters
    (one object in two slots). *)
Module MoreSamples.
Definition only_weight : Callback := λ name x,
  if decide (name = "weight") then Sample.halve name x
  else lift (Raise RuntimeError).

Definition failing : Callback := λ name x, lift (Raise RuntimeError).

Definition two_plain : Module :=
  mkModule [("weight", PTensor 1%nat Sample.weight);
            ("bias", PTensor 4%nat Sample.bias)] [].

Definition tied : Module :=
  mkModule [("weight", PTensor 1%nat Sample.weight); ("bias", PNone);
            ("scale", PDTensor 2%nat Sample.dtensor);
            ("alias", PTensor 1%nat Sample.weight)] [].

Definition tied_with_child : Module :=
  mkModule [("weight", PTensor 1%nat Sample.weight)]
           [("sub", mkModule [("weight", PTensor 1%nat Sample.weight)] [])].

Definition moved : DTensor.t := DTensor.mk Sample.full "float32" [4; 4] 1%nat.
End MoreSamples.

(** ** Notions the properties are stated with *)

(** The layout a constructor leaves behind: its shape is the one it had,
    or the local tensor's if it had none. *)
Definition resolved (x : Tensor.t) (l : Layout.t) : Layout.t :=
  Layout.set_entire_shape
    (Some (default (Tensor.shape x) (Layout.entire_shape l))) l.

(** [isinstance(arg, DTensor)] *)
Definition is_DTensor (v : Value) : bool :=
  match v with VDTensor _ => true | _ => false end.

(** [unwrapped x y]: [y] is [x] with every distributed tensor replaced by
    its local shard, and nothing else touched. *)
Inductive unwrapped : PyTree → PyTree → Prop :=
  | unwrapped_DTensor d :
      unwrapped (Leaf (VDTensor d)) (Leaf (VTensor (DTensor.local_tensor d)))
  | unwrapped_other v :
      is_DTensor v = false → unwrapped (Leaf v) (Leaf v)
  | unwrapped_list l l' :
      Forall2 unwrapped l l' → unwrapped (PyList l) (PyList l')
  | unwrapped_tuple l l' :
      Forall2 unwrapped l l' → unwrapped (PyTuple l) (PyTuple l')
  | unwrapped_dict l l' :
      Forall2 (λ a b, a.1 = b.1 ∧ unwrapped a.2 b.2) l l' →
      unwrapped (PyDict l) (PyDict l').

(** Whether a distributed tensor occurs in an argument, at any depth. *)
Fixpoint contains_DTensor (x : PyTree) : bool :=
  match x with
  | Leaf v => is_DTensor v
  | PyList l | PyTuple l => existsb contains_DTensor l
  | PyDict l => existsb (λ kv, contains_DTensor kv.2) l
  end.

(** The members [named_parameters] goes through in the children of a
    module. *)
Definition submodule_members (m : Module) : list (string * Param) :=
  flat_map (λ nm, named_members (join_prefix "" nm.1) nm.2) (_modules m).

(** The objects in a list of slots. *)
Definition objects (l : list (string * Param)) : list oid :=
  omap (λ kv, object kv.2) l.

(** The memo of [named_parameters] after it has gone through a list of
    members. *)
Fixpoint seen (memo : list oid) (members : list (string * Param)) : list oid :=
  match members with
  | [] => memo
  | (name, v) :: rest =>
      match object v with
      | None => seen memo rest
      | Some o => if decide (o ∈ memo) then seen memo rest else seen (o :: memo) rest
      end
  end.

Section Replaced.
Variable nn_Parameter : Value → Result Param.
Variable partition_fn : option Callback.

(** What becomes of a slot that is yielded: a parameter that is not a
    [DTensor] gives way to [Parameter(partition_fn(name, param.data))]. *)
Definition replacement (name : string) (param : Param) : M Heap Param :=
  match param with
  | PTensor _ x => v ← call partition_fn name (detach x); lift (nn_Parameter v)
  | _ => mret param
  end.

(** The slots of a dictionary of parameters, gone through in the order of
    the dictionary: a slot is replaced when its object is met for the first
    time; a slot with [None] or with an object met before stays. *)
Fixpoint replaced (memo : list oid) (ps : list (string * Param))
    : M Heap (list (string * Param)) :=
  match ps with
  | [] => mret []
  | (name, param) :: ps' =>
      match object param with
      | None => rest ← replaced memo ps'; mret ((name, param) :: rest)
      | Some o =>
          if decide (o ∈ memo)
          then rest ← replaced memo ps'; mret ((name, param) :: rest)
          else p ← replacement name param;
               rest ← replaced (o :: memo) ps';
               mret ((name, p) :: rest)
      end
  end.
End Replaced.

(** * Properties *)

(** ** Running a computation *)

Lemma bind_run {S A B} (m : M S A) (k : A → M S B) (s : S) :
  (m ≫= k) s = match m s with
                | (Ok a, s') => k a s'
                | (Raise e, s') => (Raise e, s')
                end.
Proof. reflexivity. Qed.

Lemma deref_some (h : Heap) r l : h !! r = Some l → deref r h = (Ok l, h).
Proof. intros H. unfold deref. by rewrite H. Qed.

Lemma self_layout_some e l :
  heap e !! DTensor.dist_layout (self e) = Some l → self_layout e = (Ok l, e).
Proof.
  intros H. unfold self_layout. rewrite bind_run. simpl.
  unfold with_heap. rewrite (deref_some _ _ _ H). by destruct e.
Qed.

Ltac run_method :=
  repeat (rewrite bind_run; simpl);
  unfold lift, set_self, modify, get; simpl.

Section DTensorProperties.
Variable planner : Tensor.t → ShardingSpec.t → ShardingSpec.t → Result Tensor.t.
Variable tensor_to : Tensor.t → list PyTree → list (string * PyTree) → Result Tensor.t.

Lemma _apply_layout_run e l :
  heap e !! DTensor.dist_layout (self e) = Some l →
  _apply_layout planner e =
    match planner (DTensor.local_tensor (self e))
                  (construct_default_sharding_spec (DTensor.local_tensor (self e))
                                                   (Layout.device_mesh l))
                  (convert_layout_to_sharding_spec l) with
    | Ok x => (Ok tt, mkEnv (DTensor.set_local_tensor x (self e)) (heap e))
    | Raise err => (Raise err, e)
    end.
Proof.
  intros H. unfold _apply_layout, device_mesh.
  rewrite !bind_run. simpl. rewrite !bind_run, (self_layout_some _ _ H). simpl.
  rewrite bind_run, (self_layout_some _ _ H). simpl.
  rewrite bind_run. unfold lift. by destruct (planner _ _ _).
Qed.

Lemma __init___run x r (h : Heap) l :
  h !! r = Some l →
  __init__ planner x r h =
    (match planner x (construct_default_sharding_spec x (Layout.device_mesh l))
                   (convert_layout_to_sharding_spec (resolved x l)) with
     | Ok y => Ok (DTensor.mk y (Tensor.dtype x) (Tensor.shape x) r)
     | Raise err => Raise err
     end,
     <[r := resolved x l]> h).
Proof.
  intros H. unfold __init__. rewrite bind_run, (deref_some _ _ _ H).
  assert (Hres : ∃ h', h' !! r = Some (resolved x l) ∧ h' = <[r := resolved x l]> h ∧
            (if Layout.entire_shape l is None
             then store r (Layout.set_entire_shape (Some (Tensor.shape x)) l)
             else mret tt) h = (Ok tt, h')).
  { exists (<[r := resolved x l]> h). split; [apply lookup_insert_eq|]. split; [done|].
    unfold resolved. destruct l as [m dt ss [s|]]; simpl.
    - unfold mret, M_ret. f_equal. symmetry. by apply insert_id.
    - reflexivity. }
  destruct Hres as (h' & Hl & -> & Hrun).
  rewrite bind_run, Hrun. unfold on_receiver.
  rewrite (_apply_layout_run _ (resolved x l)) by done. simpl.
  by destruct (planner _ _ _).
Qed.


(** C8.  The constructor resolves a layout without a shape to the shape of
    the wrapped local tensor: whatever the planner does, the layout object
    carries that shape once the constructor has run; a layout that has a
    shape keeps it; every other attribute of the layout, and every other
    layout, is as before. *)
Theorem construction_resolves_entire_shape
    (local_tensor : Tensor.t) (dist_layout : ref) (h : Heap) (l : Layout.t) :
  h !! dist_layout = Some l →
  let h' := (__init__ planner local_tensor dist_layout h).2 in
  h' !! dist_layout =
    Some (Layout.mk (Layout.device_mesh l) (Layout.device_type l)
                    (Layout.sharding_spec l)
                    (Some match Layout.entire_shape l with
                          | None => Tensor.shape local_tensor
                          | Some s => s
                          end)) ∧
  ∀ r, r ≠ dist_layout → h' !! r = h !! r.
Proof.
  intros H h'. subst h'. rewrite (__init___run _ _ _ _ H). simpl. split.
  - rewrite lookup_insert_eq. unfold resolved, Layout.set_entire_shape.
    by destruct (Layout.entire_shape l).
  - intros r Hr. by rewrite lookup_insert_ne.
Qed.

Lemma layout_convert_run (e : Env) (target_layout : ref) (cur tgt : Layout.t) :
  heap e !! DTensor.dist_layout (self e) = Some cur →
  heap e !! target_layout = Some tgt →
  layout_convert planner target_layout e =
    match planner (DTensor.local_tensor (self e))
                  (convert_layout_to_sharding_spec cur)
                  (convert_layout_to_sharding_spec tgt) with
    | Ok x =>
        (Ok tt,
         mkEnv (DTensor.set_dist_layout target_layout
                  (DTensor.set_local_tensor x (self e)))
               (heap e))
    | Raise err => (Raise err, e)
    end.
Proof.
  intros Hcur Htgt. unfold layout_convert.
  rewrite bind_run, (self_layout_some _ _ Hcur).
  rewrite bind_run. unfold with_heap at 1. rewrite (deref_some _ _ _ Htgt).
  destruct e as [d h]. simpl. rewrite !bind_run. simpl.
  unfold lift. by destruct (planner _ _ _).
Qed.

(** C4.  [layout_convert(new_layout)] turns the current layout and
    [new_layout] into specs, has the planner convert the current local
    shard between them, and then holds the planner's result as local shard
    and [new_layout] as layout; if the planner fails nothing is replaced. *)
Theorem layout_convert_replaces_shard_and_layout
    (e : Env) (new_layout : ref) (cur tgt : Layout.t) :
  heap e !! DTensor.dist_layout (self e) = Some cur →
  heap e !! new_layout = Some tgt →
  layout_convert planner new_layout e =
    match planner (DTensor.local_tensor (self e))
                  (ShardingSpec.mk (Layout.device_mesh cur) (Layout.entire_shape cur)
                     (ShardingSpec.dim_partition_dict (Layout.sharding_spec cur)))
                  (ShardingSpec.mk (Layout.device_mesh tgt) (Layout.entire_shape tgt)
                     (ShardingSpec.dim_partition_dict (Layout.sharding_spec tgt))) with
    | Ok shard =>
        (Ok tt,
         mkEnv (DTensor.mk shard (DTensor.data_type (self e))
                           (DTensor.entire_shape (self e)) new_layout)
               (heap e))
    | Raise err => (Raise err, e)
    end.
Proof. intros Hcur Htgt. by rewrite (layout_convert_run _ _ _ _ Hcur Htgt). Qed.

Lemma to_global_run (e : Env) (cur : Layout.t) :
  heap e !! DTensor.dist_layout (self e) = Some cur →
  to_global planner e =
    (planner (DTensor.local_tensor (self e))
             (convert_layout_to_sharding_spec cur)
             (ShardingSpec.mk (Layout.device_mesh cur) (Layout.entire_shape cur) ∅),
     e).
Proof.
  intros Hcur. unfold to_global. rewrite bind_run. simpl.
  by rewrite bind_run, (self_layout_some _ _ Hcur).
Qed.

Lemma to_run (e : Env) args kwargs (cur : Layout.t) :
  heap e !! DTensor.dist_layout (self e) = Some cur →
  to tensor_to args kwargs e =
    match tensor_to (DTensor.local_tensor (self e)) args kwargs with
    | Ok x =>
        let d := DTensor.mk x (Tensor.dtype x) (DTensor.entire_shape (self e))
                            (DTensor.dist_layout (self e)) in
        (Ok d, mkEnv d (<[DTensor.dist_layout (self e) :=
                           Layout.set_device_type (Tensor.device x) cur]> (heap e)))
    | Raise err => (Raise err, e)
    end.
Proof.
  intros Hcur. unfold to. rewrite bind_run. simpl. rewrite bind_run.
  unfold lift at 1. destruct (tensor_to _ _ _) as [x|err]; [|done].
  destruct e as [d h]. simpl in *. run_method.
  rewrite (self_layout_some (mkEnv _ h) cur) by done.
  by run_method.
Qed.

(** C7.  [to] moves or casts the local shard only, refreshes the cached
    element type and the device recorded on the layout, and leaves the
    partition structure alone: the layout has the [dim_partition_dict], the
    device mesh and the [entire_shape] it had, the receiver the layout and
    the global shape it had, and no other layout is written. *)
Theorem to_keeps_partition_structure (e : Env) args kwargs (cur : Layout.t) :
  heap e !! DTensor.dist_layout (self e) = Some cur →
  let e' := (to tensor_to args kwargs e).2 in
  (∃ l', heap e' !! DTensor.dist_layout (self e) = Some l' ∧
         ShardingSpec.dim_partition_dict (Layout.sharding_spec l')
         = ShardingSpec.dim_partition_dict (Layout.sharding_spec cur) ∧
         Layout.sharding_spec l' = Layout.sharding_spec cur ∧
         Layout.device_mesh l' = Layout.device_mesh cur ∧
         Layout.entire_shape l' = Layout.entire_shape cur ∧
         match tensor_to (DTensor.local_tensor (self e)) args kwargs with
         | Ok x =>
             (to tensor_to args kwargs e).1 = Ok (self e') ∧
             DTensor.local_tensor (self e') = x ∧
             DTensor.data_type (self e') = Tensor.dtype x ∧
             Layout.device_type l' = Tensor.device x
         | Raise err =>
             (to tensor_to args kwargs e).1 = Raise err ∧ e' = e
         end) ∧
  DTensor.dist_layout (self e') = DTensor.dist_layout (self e) ∧
  DTensor.entire_shape (self e') = DTensor.entire_shape (self e) ∧
  ∀ r, r ≠ DTensor.dist_layout (self e) → heap e' !! r = heap e !! r.
Proof.
  intros Hcur e'. subst e'. rewrite (to_run _ _ _ _ Hcur).
  destruct (tensor_to _ _ _) as [x|err]; simpl.
  - split; [|split; [done|split; [done|]]].
    + eexists. rewrite lookup_insert_eq. split; [done|]. by simpl.
    + intros r Hr. by rewrite lookup_insert_ne.
  - split; [|done]. by exists cur.
Qed.
End DTensorProperties.

(** ** Delegation to the array library *)

Section PyTreeInduction.
Variable P : PyTree → Prop.
Hypothesis on_leaf : ∀ v, P (Leaf v).
Hypothesis on_list : ∀ l, Forall P l → P (PyList l).
Hypothesis on_tuple : ∀ l, Forall P l → P (PyTuple l).
Hypothesis on_dict : ∀ l, Forall (λ kv, P kv.2) l → P (PyDict l).

Lemma PyTree_nested_ind : ∀ x, P x.
Proof.
  fix IH 1. intros [v|l|l|l].
  - apply on_leaf.
  - apply on_list. induction l as [|y l' IHl]; constructor; [apply IH | apply IHl].
  - apply on_tuple. induction l as [|y l' IHl]; constructor; [apply IH | apply IHl].
  - apply on_dict. induction l as [|[k y] l' IHl]; constructor; [apply IH | apply IHl].
Qed.
End PyTreeInduction.

Lemma tree_map_filter_arg_unwrapped (x : PyTree) : unwrapped x (tree_map filter_arg x).
Proof.
  induction x as [v|l IH|l IH|l IH] using PyTree_nested_ind; simpl.
  - destruct v; by constructor.
  - constructor. induction IH; simpl; by constructor.
  - constructor. induction IH; simpl; by constructor.
  - constructor. induction IH; simpl; by constructor.
Qed.

Lemma tree_map_filter_arg_no_DTensor (x : PyTree) :
  contains_DTensor (tree_map filter_arg x) = false.
Proof.
  induction x as [v|l IH|l IH|l IH] using PyTree_nested_ind; simpl.
  - by destruct v.
  - induction IH as [|y l' Hy _ IHl]; simpl; [done|]. by rewrite Hy, IHl.
  - induction IH as [|y l' Hy _ IHl]; simpl; [done|]. by rewrite Hy, IHl.
  - induction IH as [|y l' Hy _ IHl]; simpl; [done|]. by rewrite Hy, IHl.
Qed.

(** C3.  Whatever function is routed through [__torch_function__], every
    distributed tensor among the positional and the keyword arguments, at
    any depth, is replaced by its local shard and nothing else is changed;
    the function is called on these arguments and what it returns is
    returned as it is: no layout is inferred and nothing is wrapped. *)
Theorem torch_function_unwraps_and_forwards {R}
    (func : list PyTree → list (string * PyTree) → R)
    (types : list string) (args : list PyTree)
    (kwargs : option (list (string * PyTree))) :
  ∃ args' kwargs',
    __torch_function__ func types args kwargs = func args' kwargs' ∧
    Forall2 unwrapped args args' ∧
    Forall2 (λ a b, a.1 = b.1 ∧ unwrapped a.2 b.2) (default [] kwargs) kwargs' ∧
    Forall (λ x, contains_DTensor x = false) args' ∧
    Forall (λ kv, contains_DTensor kv.2 = false) kwargs'.
Proof.
  exists (map (tree_map filter_arg) args),
         (map (λ kv, (kv.1, tree_map filter_arg kv.2)) (default [] kwargs)).
  split; [by destruct kwargs|]. repeat split.
  - induction args; constructor; [apply tree_map_filter_arg_unwrapped | done].
  - induction (default [] kwargs); constructor; [|done].
    split; [done | apply tree_map_filter_arg_unwrapped].
  - apply Forall_forall. intros y [x [-> _]]%list_elem_of_fmap.
    apply tree_map_filter_arg_no_DTensor.
  - apply Forall_forall. intros y [x [-> _]]%list_elem_of_fmap.
    apply tree_map_filter_arg_no_DTensor.
Qed.

(** ** Conversion to the layout the tensor already has *)

Section NoOpConversion.
Import ResidencyPlanner.
Variable split : nat → nat → Tensor.t → Result Tensor.t.
Variable all_gather : nat → nat → Tensor.t → Result Tensor.t.
Variable all_to_all : nat → nat → nat → Tensor.t → Result Tensor.t.

Lemma primitive_for_same spec axis : primitive_for spec spec axis = NoOp.
Proof.
  unfold primitive_for. destruct (claimed_by spec axis); [|done].
  by rewrite decide_True.
Qed.

Lemma plan_same spec : Forall (λ p, p = NoOp) (plan spec spec).
Proof.
  unfold plan. apply Forall_fmap, Forall_forall. intros axis _.
  apply primitive_for_same.
Qed.

Lemma run_plan_no_ops ps x :
  Forall (λ p, p = NoOp) ps → run_plan split all_gather all_to_all ps x = Ok x.
Proof. induction 1 as [|p ps -> _ IH]; simpl; [done | apply IH]. Qed.

Lemma compatible_same spec : compatible spec spec = true.
Proof. unfold compatible. by rewrite !bool_decide_eq_true_2. Qed.

Lemma reshard_same x spec :
  reshard split all_gather all_to_all x spec spec =
    if validate spec then Ok x else Raise InvalidPartitionError.
Proof.
  unfold reshard. destruct (validate spec); simpl; [|done].
  rewrite compatible_same. simpl. apply run_plan_no_ops, plan_same.
Qed.

(** C5.  [layout_convert] to a layout equal to the current one (the same
    object or another with the same attributes) leaves the local shard as
    it is: every mesh axis yields the no-op primitive; the conversion goes
    through whenever the spec of the layout passes validation, and
    otherwise fails without touching the tensor. *)
Theorem layout_convert_to_current_layout_keeps_shard
    (e : Env) (new_layout : ref) (cur : Layout.t) :
  heap e !! DTensor.dist_layout (self e) = Some cur →
  heap e !! new_layout = Some cur →
  let spec := convert_layout_to_sharding_spec cur in
  let run := layout_convert (reshard split all_gather all_to_all) new_layout e in
  DTensor.local_tensor (self run.2) = DTensor.local_tensor (self e) ∧
  Forall (λ p, p = NoOp) (plan spec spec) ∧
  if validate spec
  then run = (Ok tt, mkEnv (DTensor.set_dist_layout new_layout (self e)) (heap e))
  else run = (Raise InvalidPartitionError, e).
Proof.
  intros Hcur Hnew spec run. subst run.
  rewrite (layout_convert_run _ _ _ cur cur) by done.
  fold spec. rewrite reshard_same.
  split; [by destruct (validate spec)|]. split; [apply plan_same|].
  by destruct (validate spec).
Qed.
End NoOpConversion.

(** ** The module system *)

Section ModuleInduction.
Variable P : Module → Prop.
Hypothesis on_module : ∀ ps ms, Forall (λ nm, P nm.2) ms → P (mkModule ps ms).

Lemma Module_nested_ind : ∀ m, P m.
Proof.
  fix IH 1. intros [ps ms]. apply on_module.
  induction ms as [|[n sub] ms' IHms]; constructor; [apply IH | apply IHms].
Qed.
End ModuleInduction.

Lemma join_prefix_root name : join_prefix "" name = name.
Proof. reflexivity. Qed.

Lemma has_dot_join a b : has_dot (a +:+ "." +:+ b) = true.
Proof. induction a as [|c a IH]; simpl; [done|]. by destruct (Ascii.eqb c "."). Qed.

Lemma join_prefix_nonempty prefix name : prefix ≠ "" → join_prefix prefix name ≠ "".
Proof.
  intros H. unfold join_prefix. rewrite decide_False by done. by destruct prefix.
Qed.

Lemma has_dot_join_prefix prefix name :
  prefix ≠ "" → has_dot (join_prefix prefix name) = true.
Proof.
  intros H. unfold join_prefix. rewrite decide_False by done. apply has_dot_join.
Qed.

Lemma named_members_inv prefix ps ms entry :
  entry ∈ named_members prefix (mkModule ps ms) →
  (∃ kv, kv ∈ ps ∧ entry = (join_prefix prefix kv.1, kv.2)) ∨
  (∃ nm, nm ∈ ms ∧ entry ∈ named_members (join_prefix prefix nm.1) nm.2).
Proof.
  simpl. intros [H|H]%elem_of_app.
  - left. apply list_elem_of_fmap in H as [kv [-> Hkv]]. by exists kv.
  - right. apply list_elem_of_In, in_flat_map in H as [nm [Hnm H]].
    exists nm. by rewrite !list_elem_of_In.
Qed.

(** The members of a child go under names with a dot. *)
Lemma named_members_dotted m :
  ∀ prefix entry, prefix ≠ "" →
    entry ∈ named_members prefix m → has_dot entry.1 = true.
Proof.
  induction m as [ps ms IH] using Module_nested_ind. intros prefix entry Hp H.
  apply named_members_inv in H as [(kv & _ & ->)|(nm & Hnm & H)].
  - by apply has_dot_join_prefix.
  - rewrite Forall_forall in IH. eapply IH; [done | | done].
    by apply join_prefix_nonempty.
Qed.

Lemma named_members_root m :
  named_members "" m = _parameters m ++ submodule_members m.
Proof.
  destruct m as [ps ms]. unfold submodule_members. simpl. f_equal.
  induction ps as [|[k p] ps IH]; simpl; [done|]. by rewrite IH.
Qed.

(** What [named_parameters] yields is a member, and is not [None]. *)
Lemma unseen_elem l :
  ∀ memo entry, entry ∈ unseen memo l → entry ∈ l ∧ is_None entry.2 = false.
Proof.
  induction l as [|[name v] l IH]; intros memo entry H; simpl in H.
  { by apply elem_of_nil in H. }
  destruct (object v) as [o|] eqn:Ho.
  - destruct (decide (o ∈ memo)).
    + apply IH in H as [H1 H2]. split; [by apply elem_of_cons; right | done].
    + apply elem_of_cons in H as [->|H].
      * split; [by apply elem_of_cons; left | by destruct v].
      * apply IH in H as [H1 H2]. split; [by apply elem_of_cons; right | done].
  - apply IH in H as [H1 H2]. split; [by apply elem_of_cons; right | done].
Qed.


Lemma unseen_app l1 :
  ∀ memo l2, unseen memo (l1 ++ l2) = unseen memo l1 ++ unseen (seen memo l1) l2.
Proof.
  induction l1 as [|[name v] l1 IH]; intros memo l2; simpl; [done|].
  destruct (object v) as [o|]; [|apply IH].
  destruct (decide (o ∈ memo)); [apply IH|]. by rewrite IH.
Qed.

Lemma elem_of_seen l :
  ∀ memo o, o ∈ seen memo l ↔ o ∈ memo ∨ o ∈ objects l.
Proof.
  induction l as [|[name v] l IH]; intros memo o; unfold objects; simpl.
  { split; [by left | intros [H|H]; [done | by apply elem_of_nil in H]]. }
  fold (objects l). destruct (object v) as [o'|] eqn:Ho; [|apply IH].
  destruct (decide (o' ∈ memo)); rewrite IH, ?elem_of_cons; [|tauto].
  split; [tauto|]. intros [H|[->|H]]; tauto.
Qed.

Lemma named_parameters_split m :
  named_parameters m =
    unseen [] (_parameters m)
    ++ unseen (seen [] (_parameters m)) (submodule_members m).
Proof.
  unfold named_parameters, named_parameters_from.
  by rewrite named_members_root, unseen_app.
Qed.

Lemma dict_del_absent {A} k (d : list (string * A)) : k ∉ d.*1 → dict_del k d = d.
Proof.
  intros H. unfold dict_del. induction d as [|[k' v] d IH]; [done|].
  rewrite filter_cons. simpl in *. apply not_elem_of_cons in H as [Hk Hd].
  rewrite decide_True by done. by rewrite IH.
Qed.

Lemma dict_set_middle {A} k (v v' : A) d1 d2 :
  k ∉ d1.*1 → dict_set k v' (d1 ++ (k, v) :: d2) = d1 ++ (k, v') :: d2.
Proof.
  intros H. induction d1 as [|[k1 v1] d1 IH]; simpl in *.
  - by rewrite decide_True.
  - apply not_elem_of_cons in H as [Hk Hd]. rewrite decide_False by done.
    by rewrite IH.
Qed.

Lemma dict_get_set_ne {A} k k' (v : A) d :
  k ≠ k' → dict_get k (dict_set k' v d) = dict_get k d.
Proof.
  intros H. induction d as [|[k1 v1] d IH]; simpl.
  - by rewrite decide_False.
  - destruct (decide (k1 = k')) as [->|]; simpl; [by rewrite !decide_False|].
    destruct (decide (k1 = k)); [done | apply IH].
Qed.

Lemma for_each_cons {S A} (body : A → M S unit) x l s :
  for_each body (x :: l) s =
    match body x s with
    | (Ok _, s') => for_each body l s'
    | (Raise e, s') => (Raise e, s')
    end.
Proof. simpl. rewrite bind_run. by destruct (body x s) as [[[]|] ?]. Qed.

Lemma for_each_app {S A} (body : A → M S unit) l1 l2 s :
  for_each body (l1 ++ l2) s =
    match for_each body l1 s with
    | (Ok _, s') => for_each body l2 s'
    | (Raise e, s') => (Raise e, s')
    end.
Proof.
  revert s. induction l1 as [|x l1 IH]; intros s; [done|].
  rewrite <- app_comm_cons, !for_each_cons.
  destruct (body x s) as [[[]|e] s']; [apply IH | done].
Qed.

Lemma setattr_run name p m :
  setattr name p m =
    if has_dot name || bool_decide (name = "")
    then (Raise KeyError, mkModule (_parameters m) (dict_del name (_modules m)))
    else (Ok tt, mkModule (dict_set name p (_parameters m)) (dict_del name (_modules m))).
Proof.
  unfold setattr, register_parameter. rewrite bind_run. simpl.
  destruct (has_dot name); simpl; [done|]. by case_decide; case_bool_decide.
Qed.

Section ModuleProperties.
Variable nn_Parameter : Value → Result Param.

Lemma distribute_body_skip partition_fn name p w :
  is_None p || isinstance_DTensor p = true →
  distribute_body nn_Parameter partition_fn (name, p) w = (Ok tt, w).
Proof. by destruct p. Qed.

Lemma distribute_body_run partition_fn name o x w :
  distribute_body nn_Parameter partition_fn (name, PTensor o x) w =
    match call partition_fn name (detach x) (layouts w) with
    | (Ok v, h) =>
        match nn_Parameter v with
        | Ok p =>
            let '(r, m) := setattr name p (root w) in (r, mkWorld m h)
        | Raise e => (Raise e, mkWorld (root w) h)
        end
    | (Raise e, h) => (Raise e, mkWorld (root w) h)
    end.
Proof.
  unfold distribute_body. simpl. rewrite !bind_run. unfold lift at 1.
  rewrite bind_run. unfold in_layouts at 1.
  destruct (call _ _ _ _) as [[v|e] h]; [|done].
  rewrite bind_run. unfold lift at 1. by destruct (nn_Parameter v).
Qed.

Lemma for_each_skip partition_fn l w :
  Forall (λ kv, isinstance_DTensor kv.2 = true) l →
  for_each (distribute_body nn_Parameter partition_fn) l w = (Ok tt, w).
Proof.
  induction 1 as [|[name p] l Hp _ IH]; [done|].
  rewrite for_each_cons, distribute_body_skip; [done|].
  simpl in Hp. rewrite Hp. apply orb_true_r.
Qed.

(** C10.  Without a [partition_fn] (the default [None]),
    [distribute_module] raises at the first parameter that is not already
    a [DTensor]: calling [None] is a [TypeError], nothing has been
    partitioned and the module is as it was.  Parameters that are
    [DTensor]s do not raise: a module with no other parameter is returned
    unchanged. *)
Theorem distribute_module_without_partition_fn (module : Module) (h : Heap) :
  (Forall (λ kv, isinstance_DTensor kv.2 = true) (named_parameters module) →
   distribute_module nn_Parameter module None h = (Ok module, h)) ∧
  (∀ pre name param post,
     named_parameters module = pre ++ (name, param) :: post →
     Forall (λ kv, isinstance_DTensor kv.2 = true) pre →
     isinstance_DTensor param = false →
     distribute_module nn_Parameter module None h = (Raise TypeError, h) ∧
     module_after nn_Parameter module None h = module).
Proof.
  split.
  - intros H. unfold distribute_module. by rewrite for_each_skip.
  - intros pre name param post Heq Hpre Hp.
    assert (Hn : is_None param = false).
    { apply (unseen_elem (named_members "" module) [] (name, param)).
      fold (named_parameters_from "" module). fold (named_parameters module).
      rewrite Heq. apply elem_of_app. right. apply elem_of_cons. by left. }
    destruct param as [o x|o d|]; try done.
    unfold distribute_module, module_after. rewrite Heq, for_each_app.
    rewrite for_each_skip by done.
    by rewrite for_each_cons, distribute_body_run.
Qed.
End ModuleProperties.

Section SubmoduleParameters.
Variable nn_Parameter : Value → Result Param.
Variable partition_fn : option Callback.

Local Abbreviation body := (distribute_body nn_Parameter partition_fn).

(** What one round of the loop can do to the module. *)
Lemma distribute_body_root entry w :
  let m' := root (body entry w).2 in
  (_parameters m' = _parameters (root w) ∨
   ∃ p, has_dot entry.1 = false ∧
        _parameters m' = dict_set entry.1 p (_parameters (root w))) ∧
  (_modules m' = _modules (root w) ∨
   _modules m' = dict_del entry.1 (_modules (root w))).
Proof.
  destruct entry as [name [o x|o d|]]; try (by split; left).
  rewrite distribute_body_run. simpl.
  destruct (call _ _ _ _) as [[v|e] h]; [|by split; left].
  destruct (nn_Parameter v) as [p|e]; [|by split; left].
  rewrite setattr_run. destruct (has_dot name) eqn:Hd; simpl.
  - split; [by left | by right].
  - case_bool_decide; simpl; (split; [|by right]); [by left|].
    right. by exists p.
Qed.

Lemma for_each_dotted_slots l w k :
  has_dot k = true →
  dict_get k (_parameters (root (for_each body l w).2))
  = dict_get k (_parameters (root w)).
Proof.
  intros Hk. revert w. induction l as [|entry l IH]; intros w; [done|].
  rewrite for_each_cons.
  destruct (distribute_body_root entry w) as [Hp _].
  assert (Hstep : dict_get k (_parameters (root (body entry w).2))
                  = dict_get k (_parameters (root w))).
  { destruct Hp as [->|(p & Hd & ->)]; [done|].
    apply dict_get_set_ne. intros ->. congruence. }
  destruct (body entry w) as [[[]|e] w']; simpl in *; [|done].
  by rewrite IH.
Qed.

Lemma for_each_children l w :
  (∀ entry, entry ∈ l → entry.1 ∉ (_modules (root w)).*1) →
  _modules (root (for_each body l w).2) = _modules (root w).
Proof.
  revert w. induction l as [|entry l IH]; intros w Hl; [done|].
  rewrite for_each_cons.
  destruct (distribute_body_root entry w) as [_ Hm].
  assert (Hstep : _modules (root (body entry w).2) = _modules (root w)).
  { destruct Hm as [Hm|Hm]; rewrite Hm; [done|].
    apply dict_del_absent, Hl, elem_of_cons. by left. }
  destruct (body entry w) as [[[]|e] w']; simpl in *; [|done].
  rewrite IH; [done|]. intros entry' H'. rewrite Hstep.
  apply Hl, elem_of_cons. by right.
Qed.

Lemma distribute_body_dotted name o x w :
  has_dot name = true → ∃ e, (body (name, PTensor o x) w).1 = Raise e.
Proof.
  intros Hd. rewrite distribute_body_run.
  destruct (call _ _ _ _) as [[v|e] h]; [|by exists e].
  destruct (nn_Parameter v) as [p|e]; [|by exists e].
  rewrite setattr_run, Hd. by exists KeyError.
Qed.

Lemma for_each_dotted_raises l w name o x :
  (name, PTensor o x) ∈ l → has_dot name = true →
  ∃ e, (for_each body l w).1 = Raise e.
Proof.
  intros Hin Hd. revert w. induction l as [|entry l IH]; intros w.
  { by apply elem_of_nil in Hin. }
  rewrite for_each_cons. apply elem_of_cons in Hin as [<-|Hin].
  - destruct (distribute_body_dotted name o x w Hd) as [e He].
    destruct (body _ w) as [[[]|e'] w']; simpl in *; [done|by exists e'].
  - destruct (body entry w) as [[[]|e'] w']; [by apply IH | by exists e'].
Qed.

Lemma for_each_Ok_or_KeyError l w :
  (∀ name x h, ∃ v h' p, call partition_fn name x h = (Ok v, h') ∧
                         nn_Parameter v = Ok p) →
  (for_each body l w).1 = Ok tt ∨ (for_each body l w).1 = Raise KeyError.
Proof.
  intros Hok. revert w. induction l as [|[name param] l IH]; intros w; [by left|].
  rewrite for_each_cons. destruct param as [o x|o d|]; try apply IH.
  rewrite distribute_body_run.
  destruct (Hok name (detach x) (layouts w)) as (v & h' & p & -> & ->).
  rewrite setattr_run. destruct (_ || _); [by right | apply IH].
Qed.
End SubmoduleParameters.

Section OwnParameters.
Variable nn_Parameter : Value → Result Param.
Variable partition_fn : option Callback.

Local Abbreviation body := (distribute_body nn_Parameter partition_fn).

Lemma replaced_stays name param ps memo h :
  (object param = None ∨ ∃ o, object param = Some o ∧ o ∈ memo) →
  replaced nn_Parameter partition_fn memo ((name, param) :: ps) h =
    match replaced nn_Parameter partition_fn memo ps h with
    | (Ok rest, h2) => (Ok ((name, param) :: rest), h2)
    | (Raise e, h2) => (Raise e, h2)
    end.
Proof.
  intros [Ho|(o & Ho & Hin)]; simpl; rewrite Ho; [|rewrite decide_True by done];
    rewrite bind_run; by destruct (replaced _ _ _ _ _) as [[rest|e] h2].
Qed.

Lemma replaced_first name param o ps memo h :
  object param = Some o → o ∉ memo →
  replaced nn_Parameter partition_fn memo ((name, param) :: ps) h =
    match replacement nn_Parameter partition_fn name param h with
    | (Ok p, h1) =>
        match replaced nn_Parameter partition_fn (o :: memo) ps h1 with
        | (Ok rest, h2) => (Ok ((name, p) :: rest), h2)
        | (Raise e, h2) => (Raise e, h2)
        end
    | (Raise e, h1) => (Raise e, h1)
    end.
Proof.
  intros Ho Hin. simpl. rewrite Ho, decide_False by done. rewrite bind_run.
  destruct (replacement _ _ _ _ _) as [[p|e] h1]; [|done].
  rewrite bind_run. by destruct (replaced _ _ _ _ _) as [[rest|e] h2].
Qed.

Lemma replacement_run name o x h :
  replacement nn_Parameter partition_fn name (PTensor o x) h =
    match call partition_fn name (detach x) h with
    | (Ok v, h') => (nn_Parameter v, h')
    | (Raise e, h') => (Raise e, h')
    end.
Proof. simpl. rewrite bind_run. by destruct (call _ _ _ _) as [[v|e] h']. Qed.

(** The loop over a stretch of the module's own parameters, slot by slot. *)
Lemma own_parameters_loop todo :
  ∀ (before suffix : list (string * Param)) ms h memo,
    NoDup (before ++ todo ++ suffix).*1 →
    Forall (λ kv, has_dot kv.1 = false ∧ kv.1 ≠ "") todo →
    Forall (λ kv, kv.1 ∉ ms.*1) todo →
    let run := for_each body (unseen memo todo)
                        (mkWorld (mkModule (before ++ todo ++ suffix) ms) h) in
    match replaced nn_Parameter partition_fn memo todo h with
    | (Ok todo', h') =>
        run = (Ok tt, mkWorld (mkModule (before ++ todo' ++ suffix) ms) h')
    | (Raise e, h') => run.1 = Raise e ∧ layouts run.2 = h'
    end.
Proof.
  induction todo as [|[k p] todo IH]; intros before suffix ms h memo Hnd Hnames Hms;
    [done|].
  apply Forall_cons in Hnames as [[Hdot Hne] Hnames].
  apply Forall_cons in Hms as [Hk Hms]. simpl in Hdot, Hne, Hk.
  assert (Hnext : ∀ p' h1 memo',
    let run := for_each body (unseen memo' todo)
                        (mkWorld (mkModule (before ++ (k, p') :: todo ++ suffix) ms) h1) in
    match replaced nn_Parameter partition_fn memo' todo h1 with
    | (Ok rest, h2) =>
        run = (Ok tt, mkWorld (mkModule (before ++ (k, p') :: rest ++ suffix) ms) h2)
    | (Raise e, h2) => run.1 = Raise e ∧ layouts run.2 = h2
    end).
  { intros p' h1 memo'. specialize (IH (before ++ [(k, p')]) suffix ms h1 memo').
    rewrite <- !app_assoc in IH. simpl in IH.
    assert (Hnd' : NoDup (before ++ (k, p') :: todo ++ suffix).*1).
    { clear -Hnd. rewrite !fmap_app in Hnd |- *. simpl in Hnd |- *.
      by rewrite ?fmap_app in Hnd |- *. }
    specialize (IH Hnd' Hnames Hms).
    destruct (replaced _ _ _ _ _) as [[rest|e] h2]; [|done].
    by rewrite <- app_assoc in IH. }
  assert (Hstay : (object p = None ∨ ∃ o, object p = Some o ∧ o ∈ memo) →
    unseen memo ((k, p) :: todo) = unseen memo todo).
  { intros [Ho|(o & Ho & Hin)]; simpl; rewrite Ho; [done|]. by rewrite decide_True. }
  destruct (object p) as [o|] eqn:Ho.
  - destruct (decide (o ∈ memo)) as [Hin|Hin].
    + rewrite replaced_stays, Hstay by eauto.
      specialize (Hnext p h memo). cbn [app] in *.
      by destruct (replaced _ _ _ _ _) as [[rest|e] h2].
    + rewrite (replaced_first _ _ o) by done.
      assert (Hyield : unseen memo ((k, p) :: todo) = (k, p) :: unseen (o :: memo) todo).
      { simpl. by rewrite Ho, decide_False. }
      rewrite Hyield. cbn [app]. rewrite for_each_cons. destruct p as [o' x|o' d|].
      * rewrite replacement_run, distribute_body_run. cbn [layouts root].
        destruct (call _ _ _ _) as [[v|e] h1]; [|done].
        destruct (nn_Parameter v) as [p'|e]; [|done].
        rewrite setattr_run, Hdot, bool_decide_eq_false_2 by done.
        cbn [orb _parameters _modules].
        rewrite dict_del_absent by done. rewrite dict_set_middle.
        -- specialize (Hnext p' h1 (o :: memo)). cbn [app] in *.
           by destruct (replaced _ _ _ _ _) as [[rest|e] h2].
        -- rewrite fmap_app in Hnd.
           apply NoDup_app in Hnd as (_ & Hnd & _). intros Hb.
           apply (Hnd k Hb). simpl. apply elem_of_cons. by left.
      * rewrite distribute_body_skip by done.
        specialize (Hnext (PDTensor o' d) h (o :: memo)). cbn [app] in *.
        change (replacement nn_Parameter partition_fn k (PDTensor o' d) h)
          with (Ok (PDTensor o' d), h).
        cbv beta iota. by destruct (replaced _ _ _ _ _) as [[rest|e] h2].
      * done.
  - rewrite replaced_stays, Hstay by eauto.
    specialize (Hnext p h memo). cbn [app] in *.
    by destruct (replaced _ _ _ _ _) as [[rest|e] h2].
Qed.

End OwnParameters.

Section Replacement.
Variable nn_Parameter : Value → Result Param.

End Replacement.

(** ** Reconstruction of the global tensor *)

Section GlobalReconstruction.
Import ResidencyPlanner.
Variable planner : Tensor.t → ShardingSpec.t → ShardingSpec.t → Result Tensor.t.
Variable split : nat → nat → Tensor.t → Result Tensor.t.
Variable all_gather : nat → nat → Tensor.t → Result Tensor.t.
Variable all_to_all : nat → nat → nat → Tensor.t → Result Tensor.t.




End GlobalReconstruction.

(** ** The properties at sample inputs *)

Example torch_function_on_nested_arguments :
  __torch_function__ (λ args kwargs, (args, kwargs)) []
    [Leaf (VDTensor Sample.dtensor);
     PyList [Leaf (VInt 1); Leaf (VDTensor Sample.dtensor)]]
    (Some [("out", PyTuple [Leaf VNone; Leaf (VDTensor Sample.dtensor)])])
  = ([Leaf (VTensor Sample.shard);
      PyList [Leaf (VInt 1); Leaf (VTensor Sample.shard)]],
     [("out", PyTuple [Leaf VNone; Leaf (VTensor Sample.shard)])]).
Proof. reflexivity. Qed.

Example named_parameters_of_nested :
  named_parameters Sample.nested
  = [("scale", PDTensor 2%nat Sample.dtensor);
     ("sub.weight", PTensor 1%nat Sample.weight)].
Proof. reflexivity. Qed.

(** A parameter object that sits in two slots is yielded once, under its
    first name, and replaced there only. *)
Example named_parameters_of_tied :
  named_parameters MoreSamples.tied
  = [("weight", PTensor 1%nat Sample.weight);
     ("scale", PDTensor 2%nat Sample.dtensor)].
Proof. reflexivity. Qed.

(** The parameter of the child is the object of the root's: it is not
    yielded a second time, no name with a dot reaches [setattr], and the
    call returns. *)
Example distribute_module_on_tied_child :
  named_parameters MoreSamples.tied_with_child
  = [("weight", PTensor 1%nat Sample.weight)] ∧
  distribute_module Sample.nn_Parameter MoreSamples.tied_with_child
    (Some Sample.halve) Sample.heap0
  = (Ok (mkModule [("weight", PTensor 100%nat (Tensor.mk [2] "float32" "cpu" true [0; 1]))]
                  [("sub", mkModule [("weight", PTensor 1%nat Sample.weight)] [])]),
     Sample.heap0).
Proof. split; reflexivity. Qed.

(** [param.data] does not require gradients, whatever the parameter does. *)
Example data_is_detached :
  Tensor.requires_grad Sample.weight = true ∧
  data (PTensor 1%nat Sample.weight)
  = Ok (Tensor.mk [2] "float32" "cpu" false [1; 2]).
Proof. split; reflexivity. Qed.


Lemma construction_resolves_entire_shape_witness :
  Sample.heap0 !! 0%nat = Some Sample.unresolved_layout ∧
  Sample.heap0 !! 3%nat = Some Sample.other_shape_layout ∧
  Layout.entire_shape
    <$> ((__init__ Sample.planner Sample.full 0%nat Sample.heap0).2 !! 0%nat)
  = Some (Some [4; 4]) ∧
  Layout.entire_shape
    <$> ((__init__ Sample.planner Sample.full 3%nat Sample.heap0).2 !! 3%nat)
  = Some (Some [8; 2]).
Proof.
  split; [reflexivity|]. split; [reflexivity|]. split.
  - destruct (construction_resolves_entire_shape Sample.planner Sample.full 0%nat
                Sample.heap0 Sample.unresolved_layout eq_refl) as [H _].
    exact (f_equal (fmap Layout.entire_shape) H).
  - destruct (construction_resolves_entire_shape Sample.planner Sample.full 3%nat
                Sample.heap0 Sample.other_shape_layout eq_refl) as [H _].
    exact (f_equal (fmap Layout.entire_shape) H).
Defined.

Lemma layout_convert_replaces_shard_and_layout_witness :
  heap Sample.env0 !! DTensor.dist_layout (self Sample.env0) = Some Sample.resolved_layout ∧
  heap Sample.env0 !! 2%nat = Some Sample.replicated_layout ∧
  layout_convert Sample.planner 2%nat Sample.env0 =
    (Ok tt, mkEnv (DTensor.mk Sample.gathered "float32" [4; 4] 2%nat) Sample.heap0).
Proof.
  split; [reflexivity|]. split; [reflexivity|].
  rewrite (layout_convert_replaces_shard_and_layout Sample.planner Sample.env0 2%nat
             Sample.resolved_layout Sample.replicated_layout eq_refl eq_refl).
  reflexivity.
Defined.

Lemma layout_convert_to_current_layout_keeps_shard_witness :
  heap Sample.env0 !! DTensor.dist_layout (self Sample.env0) = Some Sample.resolved_layout ∧
  heap Sample.env0 !! 4%nat = Some Sample.resolved_layout ∧
  layout_convert
    (ResidencyPlanner.reshard Sample.split Sample.all_gather Sample.all_to_all)
    4%nat Sample.env0 =
    (Ok tt, mkEnv (DTensor.mk Sample.shard "float32" [4; 4] 4%nat) Sample.heap0).
Proof.
  split; [reflexivity|]. split; [reflexivity|].
  destruct (layout_convert_to_current_layout_keeps_shard
              Sample.split Sample.all_gather Sample.all_to_all
              Sample.env0 4%nat Sample.resolved_layout eq_refl eq_refl)
    as (_ & _ & H).
  vm_compute in H. exact H.
Defined.


Lemma to_keeps_partition_structure_witness :
  heap Sample.env0 !! DTensor.dist_layout (self Sample.env0) = Some Sample.resolved_layout ∧
  ∃ l', heap (to Sample.tensor_to [Leaf (VStr "cuda")] [] Sample.env0).2 !! 1%nat = Some l' ∧
        Layout.sharding_spec l' = Layout.sharding_spec Sample.resolved_layout ∧
        Layout.entire_shape l' = Some [4; 4] ∧
        Layout.device_type l' = "cuda".
Proof.
  split; [reflexivity|].
  destruct (to_keeps_partition_structure Sample.tensor_to Sample.env0
              [Leaf (VStr "cuda")] [] Sample.resolved_layout eq_refl)
    as [(l' & Hl & _ & Hspec & _ & Hshape & Hmoved) _].
  exists l'. split; [exact Hl|]. split; [exact Hspec|]. split; [exact Hshape|].
  hnf in Hmoved. destruct Hmoved as (_ & _ & _ & Hdevice). exact Hdevice.
Defined.

Lemma distribute_module_without_partition_fn_witness :
  distribute_module Sample.nn_Parameter Sample.distributed None Sample.heap0
    = (Ok Sample.distributed, Sample.heap0) ∧
  distribute_module Sample.nn_Parameter Sample.flat None Sample.heap0
    = (Raise TypeError, Sample.heap0) ∧
  module_after Sample.nn_Parameter Sample.flat None Sample.heap0 = Sample.flat.
Proof.
  split.
  - apply (distribute_module_without_partition_fn Sample.nn_Parameter
             Sample.distributed Sample.heap0).
    by repeat constructor.
  - apply (proj2 (distribute_module_without_partition_fn Sample.nn_Parameter
                    Sample.flat Sample.heap0)
             [] "weight" (PTensor 1%nat Sample.weight)
             [("scale", PDTensor 2%nat Sample.dtensor)]);
      [reflexivity | constructor | reflexivity].
Defined.

(** C9.  The docstring has [distribute_module] convert all the parameters
    of the module, and its loop does go through those of the children; but
    it hands their dotted names to [setattr] on the root.  On a module whose
    child [sub] owns the plain parameter [weight], the call raises
    [KeyError]: the parameter of the child is not converted, and the root
    has no attribute [sub.weight] afterwards. *)
Lemma distribute_module_attaches_no_dotted_attribute :
  named_parameters Sample.nested
  = [("scale", PDTensor 2%nat Sample.dtensor);
     ("sub.weight", PTensor 1%nat Sample.weight)] ∧
  distribute_module Sample.nn_Parameter Sample.nested (Some Sample.halve) Sample.heap0
    = (Raise KeyError, Sample.heap0) ∧
  module_after Sample.nn_Parameter Sample.nested (Some Sample.halve) Sample.heap0
    = Sample.nested ∧
  ¬ is_Some (dict_get "sub.weight"
               (_parameters (module_after Sample.nn_Parameter Sample.nested
                               (Some Sample.halve) Sample.heap0))).
Proof.
  split; [reflexivity|]. split; [reflexivity|]. split; [reflexivity|].
  vm_compute. by intros [p Hp].
Qed.



(** * Further properties of [d_tensor.py] *)

(** ** Layout conversion *)

Section ConversionProperties.
Variable planner : Tensor.t → ShardingSpec.t → ShardingSpec.t → Result Tensor.t.

(** X1.  [layout_convert] writes to no layout object, whatever happens: in
    particular it does not resolve a target layout without a shape (only the
    constructor does) and it does not touch [device_type].  It keeps the
    cached [data_type] and [entire_shape] of the receiver, whatever the
    planner returns, and when it raises the receiver is as it was. *)
Theorem layout_convert_writes_no_layout (e : Env) (target_layout : ref) :
  let run := layout_convert planner target_layout e in
  heap run.2 = heap e ∧
  DTensor.data_type (self run.2) = DTensor.data_type (self e) ∧
  DTensor.entire_shape (self run.2) = DTensor.entire_shape (self e) ∧
  ∀ err, run.1 = Raise err → run.2 = e.
Proof.
  intros run. subst run.
  destruct (heap e !! DTensor.dist_layout (self e)) as [cur|] eqn:Hcur.
  - destruct (heap e !! target_layout) as [tgt|] eqn:Htgt.
    + rewrite (layout_convert_run planner _ _ _ _ Hcur Htgt).
      by destruct (planner _ _ _).
    + unfold layout_convert.
      rewrite bind_run, (self_layout_some _ _ Hcur), bind_run.
      unfold with_heap, deref. rewrite Htgt. by destruct e.
  - unfold layout_convert, self_layout. rewrite !bind_run. simpl.
    unfold with_heap, deref. rewrite Hcur. by destruct e.
Qed.

(** X2.  Two conversions in a row: the second starts from the layout the
    first one stored, on the shard the first one produced; if the second
    fails, the tensor stays in the state the first one left. *)
Theorem layout_convert_twice (e : Env) (r1 r2 : ref) (cur l1 l2 : Layout.t)
    (x1 : Tensor.t) :
  heap e !! DTensor.dist_layout (self e) = Some cur →
  heap e !! r1 = Some l1 →
  heap e !! r2 = Some l2 →
  planner (DTensor.local_tensor (self e))
          (convert_layout_to_sharding_spec cur)
          (convert_layout_to_sharding_spec l1) = Ok x1 →
  (layout_convert planner r1 ≫= λ _, layout_convert planner r2) e =
    match planner x1 (convert_layout_to_sharding_spec l1)
                  (convert_layout_to_sharding_spec l2) with
    | Ok x2 =>
        (Ok tt, mkEnv (DTensor.mk x2 (DTensor.data_type (self e))
                                  (DTensor.entire_shape (self e)) r2) (heap e))
    | Raise err =>
        (Raise err, mkEnv (DTensor.mk x1 (DTensor.data_type (self e))
                                      (DTensor.entire_shape (self e)) r1) (heap e))
    end.
Proof.
  intros Hcur H1 H2 Hx1.
  rewrite bind_run, (layout_convert_run planner _ _ _ _ Hcur H1), Hx1.
  rewrite (layout_convert_run planner _ r2 l1 l2); [|done|done].
  simpl. by destruct (planner _ _ _).
Qed.
End ConversionProperties.

(** ** Migration *)

Section MigrationProperties.
Variable tensor_to : Tensor.t → list PyTree → list (string * PyTree) → Result Tensor.t.

(** X3.  The device is recorded on the layout object, and a layout object
    can serve several tensors: after [to] on one of them, every other
    [DTensor] with the same layout object reads the new device from its
    layout, although its own local shard has not moved; its device mesh and
    its sharding spec read as before. *)
Theorem to_shows_through_a_shared_layout
    (e : Env) args kwargs (cur : Layout.t) (x : Tensor.t) (other : DTensor.t) :
  heap e !! DTensor.dist_layout (self e) = Some cur →
  tensor_to (DTensor.local_tensor (self e)) args kwargs = Ok x →
  DTensor.dist_layout other = DTensor.dist_layout (self e) →
  let h' := heap (to tensor_to args kwargs e).2 in
  (Layout.device_type <$> h' !! DTensor.dist_layout other) = Some (Tensor.device x) ∧
  (device_mesh (mkEnv other h')).1 = Ok (Layout.device_mesh cur) ∧
  (sharding_spec (mkEnv other h')).1 = Ok (Layout.sharding_spec cur) ∧
  (device_mesh (mkEnv other (heap e))).1 = Ok (Layout.device_mesh cur) ∧
  (sharding_spec (mkEnv other (heap e))).1 = Ok (Layout.sharding_spec cur).
Proof.
  intros Hcur Hx Hother h'. subst h'.
  rewrite (to_run tensor_to _ _ _ _ Hcur), Hx. simpl.
  assert (Hnew : (<[DTensor.dist_layout (self e) :=
                     Layout.set_device_type (Tensor.device x) cur]> (heap e))
                 !! DTensor.dist_layout other
                 = Some (Layout.set_device_type (Tensor.device x) cur)).
  { rewrite Hother. apply lookup_insert_eq. }
  split; [by rewrite Hnew|].
  unfold device_mesh, sharding_spec. rewrite !bind_run.
  rewrite (self_layout_some (mkEnv other _) _ Hnew).
  rewrite (self_layout_some (mkEnv other (heap e)) cur) by (simpl; by rewrite Hother).
  done.
Qed.

(** X4.  [to] returns the receiver, so calls chain: after [t.to(a).to(b)]
    the shard is the first result moved again, the cached element type and
    the device on the layout are those of the last result, and the layout is
    otherwise what it was; if the second move fails, the state is the one
    the first move left. *)
Theorem to_twice (e : Env) args1 kwargs1 args2 kwargs2 (cur : Layout.t) (x1 : Tensor.t) :
  heap e !! DTensor.dist_layout (self e) = Some cur →
  tensor_to (DTensor.local_tensor (self e)) args1 kwargs1 = Ok x1 →
  (to tensor_to args1 kwargs1 ≫= λ _, to tensor_to args2 kwargs2) e =
    let r := DTensor.dist_layout (self e) in
    let shape := DTensor.entire_shape (self e) in
    match tensor_to x1 args2 kwargs2 with
    | Ok x2 =>
        let d := DTensor.mk x2 (Tensor.dtype x2) shape r in
        (Ok d, mkEnv d (<[r := Layout.mk (Layout.device_mesh cur) (Tensor.device x2)
                                         (Layout.sharding_spec cur)
                                         (Layout.entire_shape cur)]> (heap e)))
    | Raise err =>
        (Raise err,
         mkEnv (DTensor.mk x1 (Tensor.dtype x1) shape r)
               (<[r := Layout.mk (Layout.device_mesh cur) (Tensor.device x1)
                                 (Layout.sharding_spec cur)
                                 (Layout.entire_shape cur)]> (heap e)))
    end.
Proof.
  intros Hcur Hx1. rewrite bind_run, (to_run tensor_to _ _ _ _ Hcur), Hx1. simpl.
  rewrite (to_run tensor_to _ _ _ (Layout.set_device_type (Tensor.device x1) cur))
    by apply lookup_insert_eq.
  simpl. destruct (tensor_to x1 args2 kwargs2) as [x2|err]; [|done].
  simpl. by rewrite insert_insert_eq.
Qed.
End MigrationProperties.

(** ** Construction *)

Section ConstructionProperties.
Variable planner : Tensor.t → ShardingSpec.t → ShardingSpec.t → Result Tensor.t.

Lemma resolved_resolved x1 x2 l : resolved x2 (resolved x1 l) = resolved x1 l.
Proof. by destruct l as [m dt ss [s|]]. Qed.

Lemma resolved_with_shape x l :
  is_Some (Layout.entire_shape l) → resolved x l = l.
Proof. destruct l as [m dt ss [s|]]; [done | by intros [? ?]]. Qed.

(** X5.  The shape of a layout is resolved once.  A constructor given a
    layout that already has a shape writes nothing to it; a second
    [DTensor] built on the layout of a first one leaves the layout with the
    shape the first one gave it, whatever the shape of the second tensor. *)
Theorem construction_resolves_once
    (x1 x2 : Tensor.t) (dist_layout : ref) (h : Heap) (l : Layout.t) :
  h !! dist_layout = Some l →
  let h1 := (__init__ planner x1 dist_layout h).2 in
  (__init__ planner x2 dist_layout h1).2 = h1 ∧
  (Layout.entire_shape <$> h1 !! dist_layout)
  = Some (Some (default (Tensor.shape x1) (Layout.entire_shape l))) ∧
  (is_Some (Layout.entire_shape l) → h1 = h).
Proof.
  intros H h1. subst h1. rewrite (__init___run planner _ _ _ _ H). simpl.
  rewrite (__init___run planner x2 _ _ (resolved x1 l)) by apply lookup_insert_eq.
  simpl. rewrite resolved_resolved, insert_insert_eq.
  split; [done|]. split; [by rewrite lookup_insert_eq|].
  intros Hs. rewrite resolved_with_shape by done. by apply insert_id.
Qed.

(** X6.  What [distribute_tensor] returns describes the tensor it was
    given, not the shard: [data_type] and [entire_shape] are those of the
    full local tensor; [to_local] hands out the shard the planner produced
    and changes nothing; [device_mesh] is the mesh of the layout. *)
Theorem distribute_tensor_describes_the_full_tensor
    (local_tensor : Tensor.t) (dist_layout : ref) (h h' : Heap) (d : DTensor.t) :
  distribute_tensor planner local_tensor dist_layout h = (Ok d, h') →
  DTensor.data_type d = Tensor.dtype local_tensor ∧
  DTensor.entire_shape d = Tensor.shape local_tensor ∧
  DTensor.dist_layout d = dist_layout ∧
  to_local (mkEnv d h') = (Ok (DTensor.local_tensor d), mkEnv d h') ∧
  ∃ l', h' !! dist_layout = Some l' ∧
        device_mesh (mkEnv d h') = (Ok (Layout.device_mesh l'), mkEnv d h') ∧
        planner local_tensor
                (construct_default_sharding_spec local_tensor (Layout.device_mesh l'))
                (convert_layout_to_sharding_spec l') = Ok (DTensor.local_tensor d).
Proof.
  unfold distribute_tensor. intros Hrun.
  destruct (h !! dist_layout) as [l|] eqn:Hl.
  - rewrite (__init___run planner _ _ _ _ Hl) in Hrun.
    destruct (planner _ _ _) as [y|err] eqn:Hy; [|done].
    injection Hrun as <- <-. simpl. repeat split.
    exists (resolved local_tensor l).
    assert (Hl' : (<[dist_layout := resolved local_tensor l]> h) !! dist_layout
                  = Some (resolved local_tensor l)) by apply lookup_insert_eq.
    split; [done|]. split; [|done].
    unfold device_mesh. rewrite bind_run.
    by rewrite (self_layout_some (mkEnv (DTensor.mk y _ _ dist_layout) _) _ Hl').
  - unfold __init__ in Hrun. rewrite bind_run in Hrun. unfold deref in Hrun.
    by rewrite Hl in Hrun.
Qed.

(** X7.  Wrapping a tensor with a fully replicated layout (an empty
    [dim_partition_dict], and no shape or the shape of the tensor) asks the
    planner for a conversion between two equal specs: the default spec is
    the spec of such a layout. *)
Theorem construction_with_replicated_layout
    (local_tensor : Tensor.t) (dist_layout : ref) (h : Heap) (l : Layout.t) :
  h !! dist_layout = Some l →
  ShardingSpec.dim_partition_dict (Layout.sharding_spec l) = ∅ →
  Layout.entire_shape l = None ∨ Layout.entire_shape l = Some (Tensor.shape local_tensor) →
  let spec := construct_default_sharding_spec local_tensor (Layout.device_mesh l) in
  (__init__ planner local_tensor dist_layout h).1 =
    match planner local_tensor spec spec with
    | Ok shard =>
        Ok (DTensor.mk shard (Tensor.dtype local_tensor)
                       (Tensor.shape local_tensor) dist_layout)
    | Raise err => Raise err
    end.
Proof.
  intros Hl Hdict Hshape spec. rewrite (__init___run planner _ _ _ _ Hl). simpl.
  assert (Hspec : convert_layout_to_sharding_spec (resolved local_tensor l) = spec).
  { unfold convert_layout_to_sharding_spec, spec, construct_default_sharding_spec.
    simpl. rewrite Hdict. by destruct Hshape as [-> | ->]. }
  by rewrite Hspec.
Qed.
End ConstructionProperties.

(** ** Printing *)

Section PrintingProperties.
Variable planner : Tensor.t → ShardingSpec.t → ShardingSpec.t → Result Tensor.t.
Variable str_of_tensor : Tensor.t → string.
Variable str_of_layout : ref → Layout.t → string.

(** X8.  Printing a [DTensor] reconstructs the global tensor: [__repr__]
    and [__str__] raise what [to_global] raises and otherwise give the text
    of the global tensor and of the layout; either way the tensor and the
    layouts are as before. *)
Theorem printing_reconstructs_the_global_tensor (e : Env) (cur : Layout.t) :
  heap e !! DTensor.dist_layout (self e) = Some cur →
  __str__ planner str_of_tensor str_of_layout e
  = __repr__ planner str_of_tensor str_of_layout e ∧
  (__repr__ planner str_of_tensor str_of_layout e).2 = e ∧
  (__repr__ planner str_of_tensor str_of_layout e).1 =
    match (to_global planner e).1 with
    | Ok g =>
        Ok ("DTensor(" +:+ str_of_tensor g +:+ ", "
            +:+ str_of_layout (DTensor.dist_layout (self e)) cur +:+ ")")
    | Raise err => Raise err
    end.
Proof.
  intros Hcur. split; [done|]. unfold __repr__.
  rewrite bind_run, (to_global_run planner _ _ Hcur). simpl.
  destruct (planner _ _ _) as [g|err]; [|done].
  rewrite bind_run. simpl. rewrite bind_run, (self_layout_some _ _ Hcur). done.
Qed.
End PrintingProperties.

(** ** Delegation *)

Lemma tree_map_filter_arg_plain (x : PyTree) :
  contains_DTensor x = false → tree_map filter_arg x = x.
Proof.
  induction x as [v|l IH|l IH|l IH] using PyTree_nested_ind; simpl; intros H.
  - by destruct v.
  - f_equal. induction IH as [|y l' Hy _ IHl]; simpl in *; [done|].
    apply orb_false_elim in H as [H1 H2]. by rewrite Hy, IHl.
  - f_equal. induction IH as [|y l' Hy _ IHl]; simpl in *; [done|].
    apply orb_false_elim in H as [H1 H2]. by rewrite Hy, IHl.
  - f_equal. induction IH as [|[k y] l' Hy _ IHl]; simpl in *; [done|].
    apply orb_false_elim in H as [H1 H2]. by rewrite Hy, IHl.
Qed.

Lemma map_tree_map_plain (l : list PyTree) :
  Forall (λ x, contains_DTensor x = false) l → map (tree_map filter_arg) l = l.
Proof.
  induction 1 as [|x l Hx _ IH]; simpl; [done|].
  by rewrite tree_map_filter_arg_plain, IH.
Qed.

Lemma map_tree_map_plain_items (l : list (string * PyTree)) :
  Forall (λ kv, contains_DTensor kv.2 = false) l →
  map (λ kv, (kv.1, tree_map filter_arg kv.2)) l = l.
Proof.
  induction 1 as [|[k x] l Hx _ IH]; simpl in *; [done|].
  by rewrite tree_map_filter_arg_plain, IH.
Qed.

(** X9.  A call that carries no distributed tensor goes through the hook
    untouched: the function receives the very positional and keyword
    arguments of the call (and no keyword arguments when [kwargs] is
    [None]). *)
Theorem torch_function_forwards_plain_arguments {R}
    (func : list PyTree → list (string * PyTree) → R)
    (types : list string) (args : list PyTree)
    (kwargs : option (list (string * PyTree))) :
  Forall (λ x, contains_DTensor x = false) args →
  Forall (λ kv, contains_DTensor kv.2 = false) (default [] kwargs) →
  __torch_function__ func types args kwargs = func args (default [] kwargs).
Proof.
  intros Hargs Hkwargs. unfold __torch_function__. simpl.
  rewrite (map_tree_map_plain _ Hargs).
  destruct kwargs as [k|]; simpl in *; [|done].
  by rewrite (map_tree_map_plain_items _ Hkwargs).
Qed.

(** X10.  Unwrapping is done once and for all: a function that itself goes
    through the hook again sees the arguments the first pass made, so the
    nested call gives what the single call gives. *)
Theorem torch_function_nested_dispatch {R}
    (func : list PyTree → list (string * PyTree) → R)
    (types types' : list string) (args : list PyTree)
    (kwargs : option (list (string * PyTree))) :
  __torch_function__
    (λ args' kwargs', __torch_function__ func types' args' (Some kwargs'))
    types args kwargs
  = __torch_function__ func types args kwargs.
Proof.
  unfold __torch_function__ at 1. simpl.
  set (args1 := map (tree_map filter_arg) args).
  set (kwargs1 := map (λ kv, (kv.1, tree_map filter_arg kv.2))
                      match kwargs with None => [] | Some k => k end).
  assert (Hargs : Forall (λ x, contains_DTensor x = false) args1).
  { apply Forall_forall. intros y [x [-> _]]%list_elem_of_fmap.
    apply tree_map_filter_arg_no_DTensor. }
  assert (Hkwargs : Forall (λ kv, contains_DTensor kv.2 = false) kwargs1).
  { apply Forall_forall. intros y [x [-> _]]%list_elem_of_fmap.
    apply tree_map_filter_arg_no_DTensor. }
  unfold __torch_function__. simpl.
  by rewrite (map_tree_map_plain _ Hargs), (map_tree_map_plain_items _ Hkwargs).
Qed.

(** ** Distribution of a module *)

Section DistributionProperties.
Variable nn_Parameter : Value → Result Param.

Local Abbreviation well_named module :=
  (Forall (λ kv : string * Param, has_dot kv.1 = false ∧ kv.1 ≠ "")
          (_parameters module)).
Local Abbreviation apart_from_children module :=
  (Forall (λ kv : string * Param, kv.1 ∉ (_modules module).*1)
          (_parameters module)).
Local Abbreviation body partition_fn := (distribute_body nn_Parameter partition_fn).

(** X11.  Nothing is done to a module that is distributed: when every
    parameter [named_parameters] yields is a [DTensor], the call returns the
    module as it is and writes no layout, with any callback and with none;
    the callback is not called, be it one that would raise. *)
Theorem distribute_module_leaves_distributed_modules
    (module : Module) (partition_fn : option Callback) (h : Heap) :
  Forall (λ kv, isinstance_DTensor kv.2 = true) (named_parameters module) →
  distribute_module nn_Parameter module partition_fn h = (Ok module, h) ∧
  module_after nn_Parameter module partition_fn h = module.
Proof.
  intros H. unfold distribute_module, module_after. by rewrite for_each_skip.
Qed.

(** X12.  A failure does not undo what was done: when the callback or
    [Parameter] raises at one of the module's own parameters (met for the
    first time there), the call raises the same exception, the parameters
    before it stay replaced, and that parameter and those after it are what
    they were. *)
Theorem distribute_module_fails_midway
    (module : Module) (partition_fn : option Callback) (h h1 h2 : Heap)
    (before before' rest : list (string * Param)) (name : string)
    (o : oid) (x : Tensor.t) (err : Error) :
  _parameters module = before ++ (name, PTensor o x) :: rest →
  o ∉ objects before →
  NoDup (_parameters module).*1 →
  well_named module →
  apart_from_children module →
  replaced nn_Parameter partition_fn [] before h = (Ok before', h1) →
  replacement nn_Parameter partition_fn name (PTensor o x) h1 = (Raise err, h2) →
  distribute_module nn_Parameter module partition_fn h = (Raise err, h2) ∧
  module_after nn_Parameter module partition_fn h
  = mkModule (before' ++ (name, PTensor o x) :: rest) (_modules module).
Proof.
  intros Hps Hfirst Hnd Hnames Hms Hbefore Hfail.
  assert (Hrun :
    for_each (body partition_fn) (named_parameters module) (mkWorld module h)
    = (Raise err,
       mkWorld (mkModule (before' ++ (name, PTensor o x) :: rest) (_modules module)) h2)).
  { rewrite named_parameters_split. destruct module as [ps ms].
    cbn [_parameters _modules] in *. subst ps.
    rewrite unseen_app.
    assert (Hyield : unseen (seen [] before) ((name, PTensor o x) :: rest)
                     = (name, PTensor o x)
                       :: unseen (o :: seen [] before) rest).
    { simpl. rewrite decide_False; [done|].
      rewrite elem_of_seen. intros [H|H]; [by apply elem_of_nil in H | done]. }
    rewrite Hyield, <- app_assoc, for_each_app.
    apply Forall_app in Hnames as [Hnames1 Hnames2].
    apply Forall_app in Hms as [Hms1 Hms2].
    pose proof (own_parameters_loop nn_Parameter partition_fn before []
                  ((name, PTensor o x) :: rest) ms h []
                  Hnd Hnames1 Hms1) as Hloop.
    cbv zeta in Hloop. rewrite Hbefore in Hloop. cbn [app] in Hloop. rewrite Hloop.
    rewrite <- app_comm_cons, for_each_cons, distribute_body_run.
    cbn [layouts root].
    rewrite replacement_run in Hfail.
    destruct (call _ _ _ _) as [[v|e] h0]; [|by injection Hfail as <- <-].
    injection Hfail as Hv <-. by rewrite Hv. }
  unfold distribute_module, module_after. by rewrite Hrun.
Qed.

Lemma dict_set_keeps_names {A} k (v : A) (d : list (string * A)) :
  d.*1 `prefix_of` (dict_set k v d).*1.
Proof.
  induction d as [|[k' v'] d IH]; simpl; [apply prefix_nil|].
  destruct (decide (k' = k)) as [->|]; simpl; [done|]. by apply prefix_cons.
Qed.

(** X13.  Whatever the outcome, [distribute_module] neither removes nor
    renames nor reorders a parameter of the root module: the names of its
    own parameters after the call begin with the names before the call, in
    the same order. *)
Theorem distribute_module_keeps_parameter_names
    (module : Module) (partition_fn : option Callback) (h : Heap) :
  (_parameters module).*1
  `prefix_of` (_parameters (module_after nn_Parameter module partition_fn h)).*1.
Proof.
  unfold module_after.
  assert (Hloop : ∀ l w,
    (_parameters (root w)).*1
    `prefix_of` (_parameters (root (for_each (body partition_fn) l w).2)).*1).
  { induction l as [|entry l IH]; intros w; [done|].
    rewrite for_each_cons.
    destruct (distribute_body_root nn_Parameter partition_fn entry w) as [Hp _].
    assert (Hstep : (_parameters (root w)).*1 `prefix_of`
                    (_parameters (root (body partition_fn entry w).2)).*1).
    { destruct Hp as [Hp|(p & _ & Hp)]; rewrite Hp; [done|].
      apply dict_set_keeps_names. }
    destruct (body partition_fn entry w) as [[[]|e] w']; simpl in *; [|done].
    etrans; [exact Hstep | apply IH]. }
  apply (Hloop (named_parameters module) (mkWorld module h)).
Qed.

(** X14.  A parameter that only a child owns stops the call.  The members
    of a child go under names with a dot; when [named_parameters] yields a
    parameter that is not a [DTensor] under such a name, the call does not
    return: it raises, with [KeyError] if the callback and [Parameter]
    succeed.  The children are what they were, and no slot with a dotted
    name is written on the root. *)
Theorem distribute_module_raises_on_dotted_names
    (module : Module) (partition_fn : option Callback) (h : Heap)
    (name : string) (o : oid) (x : Tensor.t) :
  (name, PTensor o x) ∈ named_parameters module →
  has_dot name = true →
  Forall (λ entry, entry.1 ∉ (_modules module).*1) (named_parameters module) →
  let run := distribute_module nn_Parameter module partition_fn h in
  let after := module_after nn_Parameter module partition_fn h in
  (∃ e, run.1 = Raise e) ∧
  ((∀ name x h, ∃ v h' p, call partition_fn name x h = (Ok v, h') ∧
                          nn_Parameter v = Ok p) →
   run.1 = Raise KeyError) ∧
  _modules after = _modules module ∧
  (∀ k, has_dot k = true →
        dict_get k (_parameters after) = dict_get k (_parameters module)) ∧
  ∀ child_name child entry,
    (child_name, child) ∈ _modules module → child_name ≠ "" →
    entry ∈ named_members child_name child → has_dot entry.1 = true.
Proof.
  intros Hyield Hdot Hnames run after.
  assert (Hraise : ∃ e, run.1 = Raise e).
  { destruct (for_each_dotted_raises nn_Parameter partition_fn
                (named_parameters module) (mkWorld module h) name o x Hyield Hdot)
      as [e He].
    exists e. subst run. unfold distribute_module.
    destruct (for_each _ _ _) as [[[]|e'] w]; simpl in *; congruence. }
  split; [done|]. split; [|split; [|split]].
  - intros Hok. destruct Hraise as [e He].
    destruct (for_each_Ok_or_KeyError nn_Parameter partition_fn
                (named_parameters module) (mkWorld module h) Hok) as [H|H];
      subst run; unfold distribute_module in *;
      destruct (for_each _ _ _) as [[[]|e'] w]; simpl in *; congruence.
  - subst after. unfold module_after.
    rewrite for_each_children; [done|]. by apply Forall_forall.
  - intros k Hk. subst after. unfold module_after.
    by rewrite for_each_dotted_slots.
  - intros child_name child entry _ Hne Hin.
    by apply (named_members_dotted child child_name entry).
Qed.
End DistributionProperties.

(** ** The further properties at sample inputs *)

Lemma layout_convert_twice_witness :
  heap Sample.env0 !! DTensor.dist_layout (self Sample.env0) = Some Sample.resolved_layout ∧
  heap Sample.env0 !! 2%nat = Some Sample.replicated_layout ∧
  heap Sample.env0 !! 4%nat = Some Sample.resolved_layout ∧
  (layout_convert Sample.planner 2%nat ≫= λ _, layout_convert Sample.planner 4%nat)
    Sample.env0
  = (Ok tt, mkEnv (DTensor.mk Sample.shard "float32" [4; 4] 4%nat) Sample.heap0).
Proof.
  split; [reflexivity|]. split; [reflexivity|]. split; [reflexivity|].
  rewrite (layout_convert_twice Sample.planner Sample.env0 2%nat 4%nat
             Sample.resolved_layout Sample.replicated_layout Sample.resolved_layout
             Sample.gathered eq_refl eq_refl eq_refl eq_refl).
  reflexivity.
Defined.

Lemma to_shows_through_a_shared_layout_witness :
  heap Sample.env0 !! DTensor.dist_layout (self Sample.env0) = Some Sample.resolved_layout ∧
  DTensor.dist_layout MoreSamples.moved = DTensor.dist_layout (self Sample.env0) ∧
  (Layout.device_type
     <$> heap (to Sample.tensor_to [Leaf (VStr "cuda")] [] Sample.env0).2
         !! DTensor.dist_layout MoreSamples.moved) = Some "cuda" ∧
  Tensor.device (DTensor.local_tensor MoreSamples.moved) = "cpu".
Proof.
  split; [reflexivity|]. split; [reflexivity|]. split; [|reflexivity].
  apply (to_shows_through_a_shared_layout Sample.tensor_to Sample.env0
           [Leaf (VStr "cuda")] [] Sample.resolved_layout
           (Tensor.mk [2; 4] "float32" "cuda" false [0; 1; 2; 3; 4; 5; 6; 7])
           MoreSamples.moved eq_refl eq_refl eq_refl).
Defined.

Lemma to_twice_witness :
  heap Sample.env0 !! DTensor.dist_layout (self Sample.env0) = Some Sample.resolved_layout ∧
  ∃ d h',
    (to Sample.tensor_to [Leaf (VStr "cuda")] []
       ≫= λ _, to Sample.tensor_to [Leaf (VStr "float16")] []) Sample.env0
    = (Ok d, mkEnv d h') ∧
    DTensor.data_type d = "float16" ∧
    Tensor.device (DTensor.local_tensor d) = "cuda" ∧
    (Layout.device_type <$> h' !! 1%nat) = Some "cuda".
Proof.
  split; [reflexivity|].
  rewrite (to_twice Sample.tensor_to Sample.env0 [Leaf (VStr "cuda")] []
             [Leaf (VStr "float16")] [] Sample.resolved_layout
             (Tensor.mk [2; 4] "float32" "cuda" false [0; 1; 2; 3; 4; 5; 6; 7])
             eq_refl eq_refl).
  eexists _, _. split; [reflexivity|]. by split.
Defined.

Lemma construction_resolves_once_witness :
  Sample.heap0 !! 0%nat = Some Sample.unresolved_layout ∧
  (__init__ Sample.planner Sample.weight 0%nat
     (__init__ Sample.planner Sample.full 0%nat Sample.heap0).2).2
  = (__init__ Sample.planner Sample.full 0%nat Sample.heap0).2 ∧
  Sample.heap0 !! 3%nat = Some Sample.other_shape_layout ∧
  (__init__ Sample.planner Sample.full 3%nat Sample.heap0).2 = Sample.heap0.
Proof.
  split; [reflexivity|]. split; [|split; [reflexivity|]].
  - apply (construction_resolves_once Sample.planner Sample.full Sample.weight
             0%nat Sample.heap0 Sample.unresolved_layout eq_refl).
  - apply (construction_resolves_once Sample.planner Sample.full Sample.full
             3%nat Sample.heap0 Sample.other_shape_layout eq_refl).
    by eexists.
Defined.

Lemma distribute_tensor_describes_the_full_tensor_witness :
  distribute_tensor Sample.planner Sample.full 0%nat Sample.heap0
  = (Ok (DTensor.mk Sample.shard "float32" [4; 4] 0%nat),
     (distribute_tensor Sample.planner Sample.full 0%nat Sample.heap0).2) ∧
  DTensor.entire_shape (DTensor.mk Sample.shard "float32" [4; 4] 0%nat)
  = Tensor.shape Sample.full ∧
  Tensor.shape Sample.shard ≠ Tensor.shape Sample.full.
Proof.
  assert (Hrun : distribute_tensor Sample.planner Sample.full 0%nat Sample.heap0
                 = (Ok (DTensor.mk Sample.shard "float32" [4; 4] 0%nat),
                    (distribute_tensor Sample.planner Sample.full 0%nat Sample.heap0).2))
    by reflexivity.
  split; [exact Hrun|]. split; [|done].
  apply (distribute_tensor_describes_the_full_tensor Sample.planner Sample.full
           0%nat Sample.heap0 _ _ Hrun).
Defined.

Lemma construction_with_replicated_layout_witness :
  Sample.heap0 !! 2%nat = Some Sample.replicated_layout ∧
  ShardingSpec.dim_partition_dict (Layout.sharding_spec Sample.replicated_layout) = ∅ ∧
  Layout.entire_shape Sample.replicated_layout = Some (Tensor.shape Sample.full) ∧
  (__init__ Sample.planner Sample.full 2%nat Sample.heap0).1
  = Ok (DTensor.mk Sample.full "float32" [4; 4] 2%nat).
Proof.
  split; [reflexivity|]. split; [reflexivity|]. split; [reflexivity|].
  rewrite (construction_with_replicated_layout Sample.planner Sample.full 2%nat
             Sample.heap0 Sample.replicated_layout eq_refl eq_refl
             (or_intror eq_refl)).
  reflexivity.
Defined.

Lemma printing_reconstructs_the_global_tensor_witness :
  heap Sample.env0 !! DTensor.dist_layout (self Sample.env0) = Some Sample.resolved_layout ∧
  (__repr__ Sample.planner (λ _, "tensor") (λ _ _, "layout") Sample.env0).1
  = Ok "DTensor(tensor, layout)".
Proof.
  split; [reflexivity|].
  destruct (printing_reconstructs_the_global_tensor Sample.planner
              (λ _, "tensor") (λ _ _, "layout") Sample.env0 Sample.resolved_layout
              eq_refl) as (_ & _ & H).
  rewrite H. reflexivity.
Defined.

Lemma torch_function_forwards_plain_arguments_witness :
  Forall (λ x, contains_DTensor x = false)
         [Leaf (VInt 1); PyList [Leaf (VTensor Sample.shard)]] ∧
  __torch_function__ (λ args kwargs, (args, kwargs)) []
    [Leaf (VInt 1); PyList [Leaf (VTensor Sample.shard)]] None
  = ([Leaf (VInt 1); PyList [Leaf (VTensor Sample.shard)]], []).
Proof.
  assert (Hargs : Forall (λ x, contains_DTensor x = false)
                         [Leaf (VInt 1); PyList [Leaf (VTensor Sample.shard)]])
    by (by repeat constructor).
  split; [exact Hargs|].
  apply (torch_function_forwards_plain_arguments (λ args kwargs, (args, kwargs)) []
           _ None Hargs).
  constructor.
Defined.

Lemma distribute_module_leaves_distributed_modules_witness :
  Forall (λ kv, isinstance_DTensor kv.2 = true) (named_parameters Sample.distributed) ∧
  distribute_module Sample.nn_Parameter Sample.distributed
    (Some MoreSamples.failing) Sample.heap0 = (Ok Sample.distributed, Sample.heap0).
Proof.
  assert (H : Forall (λ kv, isinstance_DTensor kv.2 = true)
                     (named_parameters Sample.distributed))
    by (by repeat constructor).
  split; [exact H|].
  apply (distribute_module_leaves_distributed_modules Sample.nn_Parameter
           Sample.distributed (Some MoreSamples.failing) Sample.heap0 H).
Defined.

Lemma distribute_module_fails_midway_witness :
  _parameters MoreSamples.two_plain
  = [("weight", PTensor 1%nat Sample.weight)]
    ++ ("bias", PTensor 4%nat Sample.bias) :: [] ∧
  (4%nat ∉ objects [("weight", PTensor 1%nat Sample.weight)]) ∧
  distribute_module Sample.nn_Parameter MoreSamples.two_plain
    (Some MoreSamples.only_weight) Sample.heap0 = (Raise RuntimeError, Sample.heap0) ∧
  module_after Sample.nn_Parameter MoreSamples.two_plain
    (Some MoreSamples.only_weight) Sample.heap0
  = mkModule [("weight", PTensor 100%nat (Tensor.mk [2] "float32" "cpu" true [0; 1]));
              ("bias", PTensor 4%nat Sample.bias)] [].
Proof.
  assert (Hfirst : 4%nat ∉ objects [("weight", PTensor 1%nat Sample.weight)])
    by compute_done.
  assert (Hnd : NoDup (_parameters MoreSamples.two_plain).*1) by compute_done.
  assert (Hnames : Forall (λ kv : string * Param, has_dot kv.1 = false ∧ kv.1 ≠ "")
                          (_parameters MoreSamples.two_plain))
    by (by repeat constructor).
  assert (Hms : Forall (λ kv : string * Param,
                          kv.1 ∉ (_modules MoreSamples.two_plain).*1)
                       (_parameters MoreSamples.two_plain)) by compute_done.
  split; [reflexivity|]. split; [exact Hfirst|].
  apply (distribute_module_fails_midway Sample.nn_Parameter MoreSamples.two_plain
           (Some MoreSamples.only_weight) Sample.heap0 Sample.heap0 Sample.heap0
           [("weight", PTensor 1%nat Sample.weight)]
           [("weight", PTensor 100%nat (Tensor.mk [2] "float32" "cpu" true [0; 1]))]
           [] "bias" 4%nat Sample.bias RuntimeError
           eq_refl Hfirst Hnd Hnames Hms eq_refl eq_refl).
Defined.

Lemma distribute_module_raises_on_dotted_names_witness :
  ("sub.weight", PTensor 1%nat Sample.weight) ∈ named_parameters Sample.nested ∧
  (distribute_module Sample.nn_Parameter Sample.nested (Some Sample.halve)
     Sample.heap0).1 = Raise KeyError ∧
  _modules (module_after Sample.nn_Parameter Sample.nested (Some Sample.halve)
              Sample.heap0) = _modules Sample.nested.
Proof.
  assert (Hyield : ("sub.weight", PTensor 1%nat Sample.weight)
                   ∈ named_parameters Sample.nested).
  { change (named_parameters Sample.nested)
      with [("scale", PDTensor 2%nat Sample.dtensor);
            ("sub.weight", PTensor 1%nat Sample.weight)].
    apply elem_of_cons. right. apply elem_of_cons. by left. }
  assert (Hnames : Forall (λ entry : string * Param,
                             entry.1 ∉ (_modules Sample.nested).*1)
                          (named_parameters Sample.nested)) by compute_done.
  destruct (distribute_module_raises_on_dotted_names Sample.nn_Parameter
              Sample.nested (Some Sample.halve) Sample.heap0
              "sub.weight" 1%nat Sample.weight Hyield eq_refl Hnames)
    as (_ & Hkey & Hmods & _).
  split; [exact Hyield|]. split; [|exact Hmods].
  apply Hkey. intros name x h. by eexists _, _, _.
Defined.
